(** * github_workflow.py: the version inference of [GithubWorkflow]

    A shallow embedding of [src/github_workflow.py].  Python strings are
    ASCII strings ([string]), Python integers are [Z], exceptions are an
    explicit error result, and the object state ([self]) together with the
    files written and the lines printed is threaded through a small state
    and error monad.  The external collaborators are parameters: the
    [git] child process and the file system (a [World]) and
    [datetime.strptime]. *)

From Stdlib Require Import ZArith NArith List Bool Ascii String Lia.
From Stdlib Require Import Decimal DecimalString DecimalZ DecimalPos DecimalN.
From Stdlib Require Import Permutation.
Import ListNotations.

#[local] Open Scope string_scope.
#[local] Open Scope Z_scope.

(** ** Exceptions and results *)

Inductive exn : Type :=
| ValueError
| IndexError
| CalledProcessError
| SystemExit (status : Z)
| OSError
| TypeError.

Inductive result (A : Type) : Type :=
| Ok (a : A)
| Raise (e : exn).

Arguments Ok {A} a.
Arguments Raise {A} e.

Definition rbind {A B : Type} (r : result A) (k : A -> result B) : result B :=
  match r with
  | Ok a => k a
  | Raise e => Raise e
  end.

(** [map f xs] / a list comprehension whose body may raise: elements are
    evaluated left to right and the first exception ends the evaluation. *)
Fixpoint rmap {A B : Type} (f : A -> result B) (xs : list A) : result (list B) :=
  match xs with
  | [] => Ok []
  | x :: xs' => rbind (f x) (fun y => rbind (rmap f xs') (fun ys => Ok (y :: ys)))
  end.

(** ** The Python built-ins the program calls *)

Module Py.

(** [str.isspace] on ASCII: TAB..CR, FS..US and the space. *)
Definition isspace (c : ascii) : bool :=
  let n := N_of_ascii c in
  ((9 <=? n) && (n <=? 13) || (28 <=? n) && (n <=? 32))%N.

(** The whitespace [int()] skips around an ASCII literal: TAB..CR and
    the space. *)
Definition int_isspace (c : ascii) : bool :=
  let n := N_of_ascii c in
  ((9 <=? n) && (n <=? 13) || (n =? 32))%N.

Definition isdigit (c : ascii) : bool :=
  let n := N_of_ascii c in ((48 <=? n) && (n <=? 57))%N.

Definition digit_value (c : ascii) : Z := Z.of_N (N_of_ascii c) - 48.

(** [s.lstrip(chars)], the set of characters given as a predicate. *)
Fixpoint lstrip (p : ascii -> bool) (s : string) : string :=
  match s with
  | EmptyString => EmptyString
  | String c s' => if p c then lstrip p s' else s
  end.

Fixpoint rstrip (p : ascii -> bool) (s : string) : string :=
  match s with
  | EmptyString => EmptyString
  | String c s' =>
      match rstrip p s' with
      | EmptyString => if p c then EmptyString else String c EmptyString
      | r => String c r
      end
  end.

(** [s.strip(chars)] removes the characters of the set from both ends. *)
Definition strip_chars (p : ascii -> bool) (s : string) : string :=
  rstrip p (lstrip p s).

(** [s.strip()] *)
Definition strip (s : string) : string := strip_chars isspace s.

(** Cutting at every character that satisfies [p]; empty pieces are
    kept, so the result is never empty. *)
Fixpoint split_at (p : ascii -> bool) (s : string) : list string :=
  match s with
  | EmptyString => [EmptyString]
  | String c s' =>
      if p c then EmptyString :: split_at p s'
      else match split_at p s' with
           | w :: ws => String c w :: ws
           | [] => [String c EmptyString]
           end
  end.

(** [s.split(sep)] for a one-character separator. *)
Definition split (sep : ascii) (s : string) : list string :=
  split_at (Ascii.eqb sep) s.

Definition nonempty (s : string) : bool :=
  match s with
  | EmptyString => false
  | String _ _ => true
  end.

(** [s.split()]: runs of whitespace separate the words and no empty
    word is produced. *)
Definition split_whitespace (s : string) : list string :=
  filter nonempty (split_at isspace s).

(** [sep.join(parts)] *)
Definition join (sep : string) (parts : list string) : string :=
  String.concat sep parts.

(** The digits of an [int()] literal in base 10: digits, with single
    underscores allowed between two digits.  [prev] tells whether the
    previous character was a digit. *)
Fixpoint int_digits (acc : Z) (prev : bool) (s : string) : option Z :=
  match s with
  | EmptyString => if prev then Some acc else None
  | String c s' =>
      if isdigit c then int_digits (10 * acc + digit_value c) true s'
      else if Ascii.eqb c "_" && prev then int_digits acc false s'
      else None
  end.

(** [int(s)]: surrounding whitespace, an optional sign, then the
    digits; anything else is a [ValueError]. *)
Definition int (s : string) : result Z :=
  let t := strip_chars int_isspace s in
  let '(sign, body) :=
    match t with
    | String "+" b => (1, b)
    | String "-" b => (-1, b)
    | _ => (1, t)
    end in
  match int_digits 0 false body with
  | Some n => Ok (sign * n)
  | None => Raise ValueError
  end.

(** [str(n)] for an integer. *)
Definition str (n : Z) : string := NilZero.string_of_int (Z.to_int n).

(** The order of tuples of integers: lexicographic, a proper prefix
    being smaller. *)
Fixpoint tuple_lt (a b : list Z) : bool :=
  match a, b with
  | [], [] => false
  | [], _ :: _ => true
  | _ :: _, [] => false
  | x :: a', y :: b' => if x =? y then tuple_lt a' b' else x <? y
  end.

(** [sorted(xs, key=f)].  The keys are computed first, one call per
    element from left to right; the sort is stable, so it is the
    insertion sort that places an element before the keys that are not
    smaller than its own. *)
Fixpoint insert_by_key {A : Type} (kx : list Z * A) (l : list (list Z * A))
  : list (list Z * A) :=
  match l with
  | [] => [kx]
  | ky :: l' =>
      if tuple_lt (fst ky) (fst kx) then ky :: insert_by_key kx l'
      else kx :: l
  end.

Fixpoint sort_keyed {A : Type} (l : list (list Z * A)) : list (list Z * A) :=
  match l with
  | [] => []
  | kx :: l' => insert_by_key kx (sort_keyed l')
  end.

Definition sorted {A : Type} (key : A -> result (list Z)) (xs : list A)
  : result (list A) :=
  rbind (rmap (fun x => rbind (key x) (fun k => Ok (k, x))) xs)
        (fun keyed => Ok (map snd (sort_keyed keyed))).

(** [xs[i]] for [i >= 0]. *)
Definition getitem {A : Type} (xs : list A) (i : nat) : result A :=
  match nth_error xs i with
  | Some x => Ok x
  | None => Raise IndexError
  end.

(** [xs[-1]] *)
Definition getitem_last {A : Type} (xs : list A) : result A :=
  match List.rev xs with
  | x :: _ => Ok x
  | [] => Raise IndexError
  end.

(** [xs[i] = v] for [i >= 0], giving the updated list. *)
Fixpoint setitem {A : Type} (xs : list A) (i : nat) (v : A) : result (list A) :=
  match xs, i with
  | [], _ => Raise IndexError
  | _ :: xs', O => Ok (v :: xs')
  | x :: xs', S i' => rbind (setitem xs' i' v) (fun r => Ok (x :: r))
  end.

(** [os.path.join(a, b)] on POSIX for a relative [b]. *)
Fixpoint ends_with_slash (s : string) : bool :=
  match s with
  | EmptyString => false
  | String c EmptyString => Ascii.eqb c "/"
  | String _ s' => ends_with_slash s'
  end.

Definition path_join (a b : string) : string :=
  match a with
  | EmptyString => b
  | _ => if ends_with_slash a then a ++ b else a ++ "/" ++ b
  end.

End Py.

(** ** The data model *)

(** The attributes [__init__] sets on a [GithubWorkflow] object. *)
Record GithubWorkflow : Type := mkGithubWorkflow {
  minor_count : Z;
  patch_count : Z;
  breaking_count : Z
}.

(** [GithubWorkflow()] *)
Definition __init__ : GithubWorkflow :=
  {| minor_count := 0; patch_count := 0; breaking_count := 0 |}.

(** How a [git] child process ends: exit status 0 with its standard
    output, or a non-zero exit status. *)
Inductive completed : Type :=
| Exit0 (out : string)
| ExitNonZero (status : Z).

(** How far the last lines of [write_version_details_to_file] get for a
    directory and a file path: [os.makedirs(directory, exist_ok=True)]
    raises; or the directory is there and [open(file_path, 'w')] raises;
    or the file has been created or emptied and
    [version_details.json(indent=4)] raises; or [file.write] raises,
    which leaves the file empty or with a part of the text; or the text
    is written. *)
Inductive storing : Type :=
| MakedirsRaises
| OpenRaises
| JsonRaises
| WriteRaises
| Stored.

(** What a run leaves on the file system short of a file written in
    full: the directories [os.makedirs] made sure of and the files
    [open(path, 'w')] created or emptied. *)
Inductive effect : Type :=
| Makedirs (directory : string)
| Truncate (path : string).

(** The environment the program is run in: what [git] answers to a given
    argument vector, and how far the writing of a file gets. *)
Record World : Type := mkWorld {
  run : list string -> completed;
  store : string -> string -> storing
}.

(** The options of the command line; [None] is an option that was not
    given. *)
Record CommandLine : Type := mkCommandLine {
  opt_config_git : bool;
  opt_branch_name : option string;
  opt_pr_labels : option string
}.

(** The namespace [parser.parse_args()] returns. *)
Record Args : Type := mkArgs {
  config_git : bool;
  branch_name : option string;
  pr_labels_arg : string
}.

Section Workflow.

(** [datetime] and [datetime.strptime(date_string, format)], which
    raises [ValueError] on a string that does not match the format. *)
Variable datetime : Type.
Variable strptime : string -> string -> result datetime.

Record CommitDetail : Type := mkCommitDetail {
  message : string;
  author : string;
  email : string;
  date : datetime
}.

Record VersionDetails : Type := mkVersionDetails {
  current_version : string;
  next_version : string;
  bump_type : string;
  commit_messages : list CommitDetail;
  tags : list string;
  pr_labels : list string
}.

(** The state of one run: the object, the files written in full (a file
    holds the record that was serialised into it), the lines printed and
    the other effects on the file system, in the order they happened. *)
Record Run : Type := mkRun {
  self : GithubWorkflow;
  files : list (string * VersionDetails);
  printed : list string;
  touched : list effect
}.

(** ** The state and error monad of the methods *)

Definition M (A : Type) : Type := Run -> result A * Run.

Definition ret {A : Type} (a : A) : M A := fun s => (Ok a, s).

Definition lift {A : Type} (r : result A) : M A := fun s => (r, s).

Definition bind {A B : Type} (m : M A) (k : A -> M B) : M B :=
  fun s =>
    match m s with
    | (Ok a, s') => k a s'
    | (Raise e, s') => (Raise e, s')
    end.

(** [try: body except CalledProcessError: handler] *)
Definition try_except_CalledProcessError {A : Type} (body handler : M A) : M A :=
  fun s =>
    match body s with
    | (Raise CalledProcessError, s') => handler s'
    | r => r
    end.

Definition get_self : M GithubWorkflow := fun s => (Ok (self s), s).

(** [subprocess.check_output(argv, text=True)]: the standard output of
    the child, or [CalledProcessError] when it exits with a non-zero
    status. *)
Definition check_output (w : World) (argv : list string) : M string :=
  lift (match run w argv with
        | Exit0 out => Ok out
        | ExitNonZero _ => Raise CalledProcessError
        end).

(** [subprocess.check_call(argv)] *)
Definition check_call (w : World) (argv : list string) : M unit :=
  lift (match run w argv with
        | Exit0 _ => Ok tt
        | ExitNonZero _ => Raise CalledProcessError
        end).

Definition touch (e : effect) (s : Run) : Run :=
  {| self := self s; files := files s; printed := printed s;
     touched := touched s ++ [e] |}.

(** [os.makedirs(directory, exist_ok=True)] and
    [with open(file_path, 'w') as file: file.write(record.json(indent=4))].
    The four calls happen in this order: [os.makedirs], [open], [json],
    [write].  Each of them can raise, [OSError] from the file system and
    [TypeError] from the serialiser, and what the calls before it did
    stays done: no step is undone, and a file that was opened and not
    written in full is left empty or with a part of the text. *)
Definition write_json (w : World) (directory file_path : string)
    (record : VersionDetails) : M unit :=
  fun s =>
    let made := touch (Makedirs directory) s in
    let opened := touch (Truncate file_path) made in
    match store w directory file_path with
    | MakedirsRaises => (Raise OSError, s)
    | OpenRaises => (Raise OSError, made)
    | JsonRaises => (Raise TypeError, opened)
    | WriteRaises => (Raise OSError, opened)
    | Stored => (Ok tt, {| self := self opened;
                           files := files opened ++ [(file_path, record)];
                           printed := printed opened;
                           touched := touched opened |})
    end.

Definition print (line : string) : M unit :=
  fun s => (Ok tt, {| self := self s;
                      files := files s;
                      printed := printed s ++ [line];
                      touched := touched s |}).

Notation "x <- m ;; k" := (bind m (fun x => k))
  (at level 61, m at next level, right associativity).
Notation "m ;;; k" := (bind m (fun _ => k))
  (at level 61, right associativity).

(** ** The methods of [GithubWorkflow] *)

Definition set_git_config (w : World) (email name : string) : M string :=
  check_call w ["git"; "config"; "--global"; "user.email"; email] ;;;
  check_call w ["git"; "config"; "--global"; "user.name"; name] ;;;
  ret "Git configuration set successfully.".

Definition fetch_tags (w : World) : M (list string) :=
  try_except_CalledProcessError
    (out <- check_output w ["git"; "tag"] ;;
     ret (Py.split_whitespace (Py.strip out)))
    (ret []).

(** The sort key of [get_current_version]:
    [tuple(map(int, x.strip('v').split('.')))]. *)
Definition version_key (x : string) : result (list Z) :=
  rmap Py.int (Py.split "." (Py.strip_chars (Ascii.eqb "v") x)).

(** [get_current_version] after [tags = self.fetch_tags()]. *)
Definition current_version_of (tags : list string) : result string :=
  match tags with
  | _ :: _ =>
      rbind (Py.sorted version_key tags) (fun sorted_tags =>
      Py.getitem_last sorted_tags)
  | [] => Ok "v0.0.0"
  end.

Definition get_current_version (w : World) : M string :=
  tags <- fetch_tags w ;;
  lift (current_version_of tags).

(** One element of the list [fetch_commit_messages] builds. *)
Definition commit_detail_of_line (line : string) : result CommitDetail :=
  let fields := Py.split "|" line in
  rbind (Py.getitem fields 4) (fun message =>
  rbind (Py.getitem fields 1) (fun author =>
  rbind (Py.getitem fields 2) (fun email =>
  rbind (Py.getitem fields 3) (fun ad =>
  rbind (strptime ad "%a %b %d %H:%M:%S %Y %z") (fun date =>
  Ok {| message := message; author := author;
        email := email; date := date |}))))).

(** The lines the list comprehension ranges over. *)
Definition log_lines (raw_commits : string) : list string :=
  filter Py.nonempty (Py.split "010"%char (Py.strip raw_commits)).

Definition fetch_commit_messages (w : World) (current_version : string)
  : M (list CommitDetail) :=
  let commands := ["git"; "log"; current_version ++ "..HEAD";
                   "--pretty=format:%H|%an|%ae|%ad|%s"] in
  raw_commits <- check_output w commands ;;
  lift (rmap commit_detail_of_line (log_lines raw_commits)).

(** The branches of [determine_next_version] on the list [parts]. *)
Definition bump_parts (g : GithubWorkflow) (parts : list Z) : result (list Z) :=
  if breaking_count g >? 0 then
    rbind (Py.getitem parts 0) (fun p0 =>
    rbind (Py.setitem parts 0 (p0 + 1)) (fun parts =>
    rbind (Py.setitem parts 1 0) (fun parts =>
    Py.setitem parts 2 0)))
  else if minor_count g >? 0 then
    rbind (Py.getitem parts 1) (fun p1 =>
    rbind (Py.setitem parts 1 (p1 + 1)) (fun parts =>
    Py.setitem parts 2 0))
  else if patch_count g >? 0 then
    rbind (Py.getitem parts 2) (fun p2 =>
    Py.setitem parts 2 (p2 + 1))
  else Ok parts.

Definition determine_next_version (current_version : string) : M string :=
  parts <- lift (rmap Py.int
                   (Py.split "." (Py.strip_chars (Ascii.eqb "v") current_version))) ;;
  g <- get_self ;;
  parts <- lift (bump_parts g parts) ;;
  ret ("v" ++ Py.join "." (map Py.str parts)).

Definition determine_version_bump : M string :=
  g <- get_self ;;
  if breaking_count g >? 0 then ret "Major"
  else if minor_count g >? 0 then ret "Minor"
  else if patch_count g >? 0 then ret "Patch"
  else ret "None".

Definition write_version_details_to_file (w : World)
    (branch_name pr_labels : string) : M string :=
  current_version <- get_current_version w ;;
  commit_messages <- fetch_commit_messages w current_version ;;
  next_version <- determine_next_version current_version ;;
  bump_type <- determine_version_bump ;;
  tags <- fetch_tags w ;;
  let version_details :=
    {| current_version := current_version;
       next_version := next_version;
       bump_type := bump_type;
       commit_messages := commit_messages;
       tags := tags;
       pr_labels := Py.split "," pr_labels |} in
  let directory := ".artifacts/" ++ branch_name in
  let file_path := Py.path_join directory "version_details.json" in
  write_json w directory file_path version_details ;;;
  ret ("Version details written to " ++ file_path).

(** [parser.parse_args()]: the three options with their defaults. *)
Definition parse_args (cl : CommandLine) : Args :=
  {| config_git := opt_config_git cl;
     branch_name := opt_branch_name cl;
     pr_labels_arg := match opt_pr_labels cl with
                      | Some labels => labels
                      | None => ""
                      end |}.

Definition process_arguments (w : World) (cl : CommandLine) : M unit :=
  let args := parse_args cl in
  if config_git args then
    msg <- set_git_config w "user@example.com" "GitHub User" ;;
    print msg
  else
    match branch_name args with
    | Some (String c b) =>
        msg <- write_version_details_to_file w (String c b) (pr_labels_arg args) ;;
        print msg
    | _ => lift (Raise (SystemExit 2))
    end.

(** [workflow = GithubWorkflow(); workflow.process_arguments()] *)
Definition fresh : Run :=
  {| self := __init__; files := []; printed := []; touched := [] |}.

Definition main (w : World) (cl : CommandLine) : result unit * Run :=
  process_arguments w cl fresh.

End Workflow.

Arguments message {datetime} c.
Arguments author {datetime} c.
Arguments email {datetime} c.
Arguments date {datetime} c.
Arguments current_version {datetime} v.
Arguments next_version {datetime} v.
Arguments bump_type {datetime} v.
Arguments commit_messages {datetime} v.
Arguments tags {datetime} v.
Arguments pr_labels {datetime} v.
Arguments self {datetime} r.
Arguments files {datetime} r.
Arguments printed {datetime} r.
Arguments touched {datetime} r.
Arguments mkRun {datetime} self files printed touched.
Arguments touch {datetime} e s.
Arguments ret {datetime A} a.
Arguments lift {datetime A} r.
Arguments bind {datetime A B} m k.
Arguments get_self {datetime}.
Arguments check_output {datetime} w argv.
Arguments check_call {datetime} w argv.
Arguments write_json {datetime} w directory file_path record.
Arguments print {datetime} line.
Arguments try_except_CalledProcessError {datetime A} body handler.
Arguments set_git_config {datetime} w email name.
Arguments fetch_tags {datetime} w.
Arguments get_current_version {datetime} w.
Arguments commit_detail_of_line {datetime} strptime line.
Arguments fetch_commit_messages {datetime} strptime w current_version.
Arguments determine_next_version {datetime} current_version.
Arguments determine_version_bump {datetime}.
Arguments write_version_details_to_file {datetime} strptime w branch_name pr_labels.
Arguments process_arguments {datetime} strptime w cl.
Arguments fresh {datetime}.
Arguments main {datetime} strptime w cl.

(** ** Versions, as the specification has them *)

(** A version is a triple of non-negative integers. *)
Record Version : Type := mkVersion {
  major : N;
  minor : N;
  patch : N
}.

(** The rendering with a leading "v": [v1.4.2]. *)
Definition render (v : Version) : string :=
  "v" ++ Py.str (Z.of_N (major v)) ++ "." ++ Py.str (Z.of_N (minor v))
      ++ "." ++ Py.str (Z.of_N (patch v)).

Definition components (v : Version) : list Z :=
  [Z.of_N (major v); Z.of_N (minor v); Z.of_N (patch v)].

(** The lexicographic order on (major, minor, patch). *)
Definition Version_lt (v w : Version) : Prop :=
  (major v < major w
   \/ major v = major w
      /\ (minor v < minor w
          \/ minor v = minor w /\ patch v < patch w))%N.

Definition Version_le (v w : Version) : Prop := Version_lt v w \/ v = w.

(** The number a run of decimal digits writes, read after the digits of
    value [acc]. *)
Fixpoint decimal (s : string) (acc : N) : option N :=
  match s with
  | EmptyString => Some acc
  | String c s' =>
      let n := N_of_ascii c in
      if ((48 <=? n) && (n <=? 57))%N
      then decimal s' (10 * acc + (n - 48))%N
      else None
  end.

Definition number (s : string) : option N :=
  match s with
  | EmptyString => None
  | String _ _ => decimal s 0
  end.

(** The text before the first dot and the texts after each dot. *)
Fixpoint dotted (s : string) : string * list string :=
  match s with
  | EmptyString => (EmptyString, [])
  | String c s' =>
      let (x, xs) := dotted s' in
      if Ascii.eqb c "." then (EmptyString, x :: xs) else (String c x, xs)
  end.

(** The tag without its prefix [v], when it has one. *)
Definition unprefixed (tag : string) : string :=
  match tag with
  | EmptyString => tag
  | String c rest => if Ascii.eqb c "v" then rest else tag
  end.

(** The version a tag stands for, when the tag parses as exactly three
    non-negative integers: after the prefix [v], three non-empty runs of
    decimal digits with a dot between them.  This reading of a tag is
    the specification's; it shares nothing with the sort key of the
    code. *)
Definition tag_version (tag : string) : option Version :=
  match dotted (unprefixed tag) with
  | (a, [b; c]) =>
      match number a, number b, number c with
      | Some x, Some y, Some z => Some {| major := x; minor := y; patch := z |}
      | _, _, _ => None
      end
  | _ => None
  end.

(** The priority rule of the specification's Version Calculator: the
    next version and the bump class for a version and a counter state. *)
Definition spec_next_version (v : Version) (g : GithubWorkflow) : Version * string :=
  if breaking_count g >? 0 then
    ({| major := major v + 1; minor := 0; patch := 0 |}, "Major")
  else if minor_count g >? 0 then
    ({| major := major v; minor := minor v + 1; patch := 0 |}, "Minor")
  else if patch_count g >? 0 then
    ({| major := major v; minor := minor v; patch := patch v + 1 |}, "Patch")
  else (v, "None").

(** ** A date parser for the examples

    The layout [git log] prints for [%ad], [Thu Apr 7 15:13:13 2005 -0700],
    read field by field.  It stands for [datetime.strptime] in the
    concrete runs below; the general statements hold for every parser. *)

Record git_date : Type := mkGitDate {
  weekday : nat;
  month : nat;
  day : Z;
  hour : Z;
  minute : Z;
  second : Z;
  year : Z;
  utcoffset : Z
}.

Fixpoint index_of (x : string) (l : list string) : result nat :=
  match l with
  | [] => Raise ValueError
  | y :: l' => if String.eqb x y then Ok O
               else rbind (index_of x l') (fun i => Ok (S i))
  end.

Definition in_range (lo hi n : Z) : result Z :=
  if (lo <=? n) && (n <=? hi) then Ok n else Raise ValueError.

Definition strptime_git (date_string format : string) : result git_date :=
  if negb (String.eqb format "%a %b %d %H:%M:%S %Y %z") then Raise ValueError else
  match Py.split " " date_string with
  | [a; b; d; t; y; z] =>
      rbind (index_of a ["Mon"; "Tue"; "Wed"; "Thu"; "Fri"; "Sat"; "Sun"]) (fun wd =>
      rbind (index_of b ["Jan"; "Feb"; "Mar"; "Apr"; "May"; "Jun";
                         "Jul"; "Aug"; "Sep"; "Oct"; "Nov"; "Dec"]) (fun mo =>
      rbind (rbind (Py.int d) (in_range 1 31)) (fun dd =>
      match Py.split ":" t with
      | [hh; mm; ss] =>
          rbind (rbind (Py.int hh) (in_range 0 23)) (fun h =>
          rbind (rbind (Py.int mm) (in_range 0 59)) (fun mi =>
          rbind (rbind (Py.int ss) (in_range 0 61)) (fun se =>
          rbind (rbind (Py.int y) (in_range 1 9999)) (fun yy =>
          rbind (rbind (Py.int z) (in_range (-2359) 2359)) (fun off =>
          Ok {| weekday := wd; month := S mo; day := dd; hour := h;
                minute := mi; second := se; year := yy; utcoffset := off |})))))
      | _ => Raise ValueError
      end)))
  | _ => Raise ValueError
  end.

(** ** The repositories of the examples *)

(** A repository whose tags are listed as [tag_out] and whose log since
    [since] is [log_out]; any other [git] command fails.  Every file can
    be written. *)
Definition repository (tag_out since log_out : string) : World :=
  {| run := fun argv =>
       match argv with
       | ["git"; "tag"] => Exit0 tag_out
       | ["git"; "log"; range; "--pretty=format:%H|%an|%ae|%ad|%s"] =>
           if String.eqb range (since ++ "..HEAD") then Exit0 log_out
           else ExitNonZero 128
       | _ => ExitNonZero 1
       end;
     store := fun _ _ => Stored |}.

(** A repository in which [git tag] fails. *)
Definition broken_tag_listing (log_out : string) : World :=
  {| run := fun argv =>
       match argv with
       | ["git"; "log"; _; "--pretty=format:%H|%an|%ae|%ad|%s"] => Exit0 log_out
       | _ => ExitNonZero 128
       end;
     store := fun _ _ => Stored |}.

Definition newline : string := String "010"%char EmptyString.

(** Tag [v1.2.3] and the two commits [feat: add X] and [fix: typo]. *)
Definition repo_feat_fix : World :=
  repository ("v1.2.3" ++ newline) "v1.2.3"
    ("9fceb02|Ada|ada@example.com|Thu Apr 7 15:13:13 2005 -0700|feat: add X" ++ newline ++
     "1a410ef|Bob|bob@example.com|Fri Apr 8 09:02:41 2005 +0200|fix: typo" ++ newline).

(** The same two commits, listed in the other order. *)
Definition repo_fix_feat : World :=
  repository ("v1.2.3" ++ newline) "v1.2.3"
    ("1a410ef|Bob|bob@example.com|Fri Apr 8 09:02:41 2005 +0200|fix: typo" ++ newline ++
     "9fceb02|Ada|ada@example.com|Thu Apr 7 15:13:13 2005 -0700|feat: add X" ++ newline).

(** Tag [v1.2.3] and one commit that carries both breaking markers,
    beside a minor-level and a patch-level commit. *)
Definition repo_breaking : World :=
  repository ("v1.2.3" ++ newline) "v1.2.3"
    ("cac0cab|Ada|ada@example.com|Thu Apr 7 15:13:13 2005 -0700|feat!: BREAKING CHANGE drop the old API" ++ newline ++
     "9fceb02|Ada|ada@example.com|Thu Apr 7 16:00:00 2005 -0700|feat: add X" ++ newline ++
     "1a410ef|Bob|bob@example.com|Fri Apr 8 09:02:41 2005 +0200|fix: typo" ++ newline).

(** ** Auxiliary definitions of the proofs *)

(** Every character of [s] satisfies [p]. *)
Fixpoint all_chars (p : ascii -> bool) (s : string) : bool :=
  match s with
  | EmptyString => true
  | String c s' => p c && all_chars p s'
  end.

(** The characters [str] writes for an integer. *)
Definition numeric (c : ascii) : bool := Py.isdigit c || Ascii.eqb c "-".

(** The value of a decimal numeral read after the prefix of value [acc]. *)
Fixpoint uint_value (d : uint) (acc : Z) : Z :=
  match d with
  | Nil => acc
  | D0 l => uint_value l (10 * acc)
  | D1 l => uint_value l (10 * acc + 1)
  | D2 l => uint_value l (10 * acc + 2)
  | D3 l => uint_value l (10 * acc + 3)
  | D4 l => uint_value l (10 * acc + 4)
  | D5 l => uint_value l (10 * acc + 5)
  | D6 l => uint_value l (10 * acc + 6)
  | D7 l => uint_value l (10 * acc + 7)
  | D8 l => uint_value l (10 * acc + 8)
  | D9 l => uint_value l (10 * acc + 9)
  end.

(** What the methods compute, read off the world and the object: the
    run lemmas below show that the methods return these values and leave
    the object as it was. *)

Definition listed_tags (w : World) : list string :=
  match run w ["git"; "tag"] with
  | Exit0 out => Py.split_whitespace (Py.strip out)
  | ExitNonZero _ => []
  end.

Definition logged_commits {datetime : Type}
    (strptime : string -> string -> result datetime)
    (w : World) (since : string) : result (list (CommitDetail datetime)) :=
  match run w ["git"; "log"; since ++ "..HEAD";
               "--pretty=format:%H|%an|%ae|%ad|%s"] with
  | Exit0 raw_commits => rmap (commit_detail_of_line strptime) (log_lines raw_commits)
  | ExitNonZero _ => Raise CalledProcessError
  end.

Definition next_version_of (g : GithubWorkflow) (version : string) : result string :=
  rbind (version_key version) (fun parts =>
  rbind (bump_parts g parts) (fun parts =>
  Ok ("v" ++ Py.join "." (map Py.str parts)))).

Definition bump_of (g : GithubWorkflow) : string :=
  if breaking_count g >? 0 then "Major"
  else if minor_count g >? 0 then "Minor"
  else if patch_count g >? 0 then "Patch"
  else "None".

Definition artifact_directory (branch_name : string) : string :=
  ".artifacts/" ++ branch_name.

Definition artifact_path (branch_name : string) : string :=
  Py.path_join (".artifacts/" ++ branch_name) "version_details.json".

(** The state after a run that wrote [record] for a branch. *)
Definition stored_in {datetime : Type} (branch_name : string)
    (record : VersionDetails datetime) (s : Run datetime) : Run datetime :=
  {| self := self s;
     files := files s ++ [(artifact_path branch_name, record)];
     printed := printed s;
     touched := touched s ++ [Makedirs (artifact_directory branch_name);
                              Truncate (artifact_path branch_name)] |}.


(** The decision a run of the pipeline recorded: bump type and next
    version of every record written, or nothing when the run raised. *)
Definition decision {datetime : Type} (r : result string * Run datetime)
  : option (list (string * string)) :=
  match fst r with
  | Ok _ => Some (map (fun f => (bump_type (snd f), next_version (snd f)))
                      (files (snd r)))
  | Raise _ => None
  end.

(** Two repositories with the same tags whose logs list the same lines,
    possibly in another order, on file systems that let the writing of a
    file get as far. *)
Definition same_commits_reordered (w w' : World) : Prop :=
  (forall directory file_path,
      store w directory file_path = store w' directory file_path) /\
  run w ["git"; "tag"] = run w' ["git"; "tag"] /\
  forall since,
    match run w ["git"; "log"; since ++ "..HEAD"; "--pretty=format:%H|%an|%ae|%ad|%s"],
          run w' ["git"; "log"; since ++ "..HEAD"; "--pretty=format:%H|%an|%ae|%ad|%s"]
    with
    | Exit0 raw, Exit0 raw' => Permutation (log_lines raw) (log_lines raw')
    | ExitNonZero _, ExitNonZero _ => True
    | _, _ => False
    end.

(** ** Definitions of the further properties *)

(** The number of characters of [s] that satisfy [p]. *)
Fixpoint count_chars (p : ascii -> bool) (s : string) : nat :=
  match s with
  | EmptyString => O
  | String c s' => if p c then S (count_chars p s') else count_chars p s'
  end.

(** The part of [s] before its first character that satisfies [p]. *)
Fixpoint up_to (p : ascii -> bool) (s : string) : string :=
  match s with
  | EmptyString => EmptyString
  | String c s' => if p c then EmptyString else String c (up_to p s')
  end.

(** The priority rule on the first three components of a tuple. *)
Definition bumped (g : GithubWorkflow) (a b c : Z) : list Z :=
  if breaking_count g >? 0 then [a + 1; 0; 0]
  else if minor_count g >? 0 then [a; b + 1; 0]
  else if patch_count g >? 0 then [a; b; c + 1]
  else [a; b; c].

(** The argument vector of the [git log] call for a current version. *)
Definition log_command (since : string) : list string :=
  ["git"; "log"; since ++ "..HEAD"; "--pretty=format:%H|%an|%ae|%ad|%s"].

(** A line of the log, as the format [%H|%an|%ae|%ad|%s] lays it out. *)
Definition log_line (hash name mail ad subject : string) : string :=
  hash ++ "|" ++ name ++ "|" ++ mail ++ "|" ++ ad ++ "|" ++ subject.

(** A repository without tags in which [v0.0.0] names no revision. *)
Definition repo_untagged : World :=
  {| run := fun argv =>
       match argv with
       | ["git"; "tag"] => Exit0 ""
       | _ => ExitNonZero 128
       end;
     store := fun _ _ => Stored |}.

(** A tag as [git tag] prints it: not empty and without whitespace. *)
Definition word (t : string) : Prop :=
  t <> "" /\ all_chars (fun c => negb (Py.isspace c)) t = true.

(** The output of [git tag] for the tags [ts]: one tag on each line. *)
Fixpoint one_per_line (ts : list string) : string :=
  match ts with
  | [] => ""
  | t :: ts' => t ++ newline ++ one_per_line ts'
  end.

(** * Facts about the built-ins *)

Module PyFacts.

Lemma all_chars_weaken (p q : ascii -> bool) (s : string) :
  (forall c, p c = true -> q c = true) ->
  all_chars p s = true -> all_chars q s = true.
Proof.
  intros Hpq. induction s as [|c s IH]; simpl; [reflexivity|].
  intros H. apply andb_true_iff in H as [Hc Hs].
  now rewrite (Hpq _ Hc), (IH Hs).
Qed.

Lemma all_chars_app (p : ascii -> bool) (s t : string) :
  all_chars p (s ++ t) = all_chars p s && all_chars p t.
Proof.
  induction s as [|c s IH]; simpl; [reflexivity|].
  now rewrite IH, andb_assoc.
Qed.

Lemma lstrip_id (p : ascii -> bool) (s : string) :
  all_chars (fun c => negb (p c)) s = true -> Py.lstrip p s = s.
Proof.
  destruct s as [|c s]; simpl; [reflexivity|].
  intros H. apply andb_true_iff in H as [Hc _].
  apply negb_true_iff in Hc. now rewrite Hc.
Qed.

Lemma rstrip_id (p : ascii -> bool) (s : string) :
  all_chars (fun c => negb (p c)) s = true -> Py.rstrip p s = s.
Proof.
  induction s as [|c s IH]; simpl; [reflexivity|].
  intros H. apply andb_true_iff in H as [Hc Hs].
  apply negb_true_iff in Hc. rewrite (IH Hs), Hc.
  now destruct s.
Qed.

Lemma strip_chars_id (p : ascii -> bool) (s : string) :
  all_chars (fun c => negb (p c)) s = true -> Py.strip_chars p s = s.
Proof.
  intros H. unfold Py.strip_chars. now rewrite (lstrip_id _ _ H), rstrip_id.
Qed.

(** One leading character of the set, then none: only it is removed. *)
Lemma strip_chars_head (p : ascii -> bool) (c : ascii) (s : string) :
  p c = true ->
  all_chars (fun c => negb (p c)) s = true ->
  Py.strip_chars p (String c s) = s.
Proof.
  intros Hc H. unfold Py.strip_chars. simpl. rewrite Hc.
  now rewrite (lstrip_id _ _ H), rstrip_id.
Qed.

Lemma split_at_whole (p : ascii -> bool) (s : string) :
  all_chars (fun c => negb (p c)) s = true -> Py.split_at p s = [s].
Proof.
  induction s as [|c s IH]; simpl; [reflexivity|].
  intros H. apply andb_true_iff in H as [Hc Hs].
  apply negb_true_iff in Hc. now rewrite Hc, (IH Hs).
Qed.

Lemma split_at_app (p : ascii -> bool) (x : string) (c : ascii) (r : string) :
  all_chars (fun c => negb (p c)) x = true ->
  p c = true ->
  Py.split_at p (x ++ String c r) = x :: Py.split_at p r.
Proof.
  intros Hx Hc. induction x as [|a x IH]; simpl.
  - now rewrite Hc.
  - simpl in Hx. apply andb_true_iff in Hx as [Ha Hx].
    apply negb_true_iff in Ha. now rewrite Ha, (IH Hx).
Qed.

(** Splitting undoes joining, when no part holds the separator and
    there is at least one part. *)
Lemma split_join (sep : ascii) (parts : list string) :
  parts <> [] ->
  Forall (fun x => all_chars (fun c => negb (Ascii.eqb sep c)) x = true) parts ->
  Py.split sep (Py.join (String sep EmptyString) parts) = parts.
Proof.
  unfold Py.split, Py.join.
  induction parts as [|x parts IH]; [congruence|].
  intros _ H. inversion H as [|? ? Hx Hparts]; subst.
  destruct parts as [|y parts].
  - simpl. now apply split_at_whole.
  - change (concat (String sep "") (x :: y :: parts))
      with (x ++ String sep (concat (String sep "") (y :: parts)))%string.
    rewrite split_at_app by (trivial; apply Ascii.eqb_refl).
    f_equal. apply IH; [discriminate|assumption].
Qed.

Lemma all_chars_join (p : ascii -> bool) (sep : ascii) (parts : list string) :
  p sep = true ->
  Forall (fun x => all_chars p x = true) parts ->
  all_chars p (Py.join (String sep EmptyString) parts) = true.
Proof.
  intros Hsep. unfold Py.join.
  induction parts as [|x parts IH]; [reflexivity|].
  intros H. inversion H as [|? ? Hx Hparts]; subst.
  destruct parts as [|y parts]; [exact Hx|].
  change (concat (String sep "") (x :: y :: parts))
    with (x ++ String sep (concat (String sep "") (y :: parts)))%string.
  rewrite all_chars_app. cbn [all_chars].
  now rewrite Hx, Hsep, (IH Hparts).
Qed.

(** *** [str] and [int] *)

Example int_accepts_sign_space_underscore :
  Py.int " +1_000 " = Ok 1000 /\ Py.int "-07" = Ok (-7) /\ Py.int "12" = Ok 12.
Proof. repeat split. Qed.

Example int_rejects :
  Py.int "" = Raise ValueError /\ Py.int "1__0" = Raise ValueError
  /\ Py.int "_1" = Raise ValueError /\ Py.int "+ 1" = Raise ValueError
  /\ Py.int "not-a-version" = Raise ValueError.
Proof. repeat split. Qed.

Example strip_and_split :
  Py.strip_chars (Ascii.eqb "v") "vv1.2.3v" = "1.2.3"
  /\ Py.split "." "1..2" = ["1"; ""; "2"]
  /\ Py.split_whitespace "  v1.0.0 v1.1.0  " = ["v1.0.0"; "v1.1.0"].
Proof. repeat split. Qed.

Lemma digits_of_uint (d : uint) :
  all_chars Py.isdigit (NilEmpty.string_of_uint d) = true.
Proof. induction d; simpl; auto. Qed.

Lemma int_digits_of_uint (d : uint) (acc : Z) :
  Py.int_digits acc true (NilEmpty.string_of_uint d) = Some (uint_value d acc).
Proof.
  revert acc. induction d; intros acc;
    cbn [NilEmpty.string_of_uint Py.int_digits uint_value]; try reflexivity.
  all: match goal with
       | |- (if Py.isdigit ?c then _ else _) = _ =>
           change (Py.isdigit c) with true; cbv iota
       end.
  all: rewrite IHd; do 2 f_equal; unfold Py.digit_value.
  all: generalize (10 * acc); intros t; simpl; lia.
Qed.

Lemma uint_value_pos (d : uint) (p : positive) :
  uint_value d (Z.pos p) = Z.pos (Pos.of_uint_acc d p).
Proof.
  revert p. induction d; intros p;
    cbn [uint_value Pos.of_uint_acc]; try reflexivity;
    rewrite <- IHd; f_equal; lia.
Qed.

Lemma uint_value_0 (d : uint) : uint_value d 0 = Z.of_uint d.
Proof.
  unfold Z.of_uint.
  induction d; simpl; try reflexivity; try exact IHd;
    apply (uint_value_pos d).
Qed.

Lemma isdigit_not_int_isspace (c : ascii) :
  Py.isdigit c = true -> negb (Py.int_isspace c) = true.
Proof.
  unfold Py.isdigit, Py.int_isspace.
  generalize (N_of_ascii c). intros n H.
  apply andb_true_iff in H as [H1 H2].
  apply N.leb_le in H1, H2. apply negb_true_iff.
  apply orb_false_iff; split.
  - apply andb_false_iff; right. apply N.leb_gt. lia.
  - apply N.eqb_neq. lia.
Qed.

Lemma int_digits_start (d : uint) :
  d <> Nil ->
  Py.int_digits 0 false (NilEmpty.string_of_uint d) = Some (uint_value d 0).
Proof.
  destruct d; [congruence|..]; intros _;
    cbn [NilEmpty.string_of_uint Py.int_digits];
    match goal with
    | |- (if Py.isdigit ?c then _ else _) = _ =>
        change (Py.isdigit c) with true; cbv iota
    end;
    rewrite int_digits_of_uint; reflexivity.
Qed.

(** A literal that starts with a digit has no sign. *)
Lemma unsigned_literal (c : ascii) (s : string) :
  Py.isdigit c = true ->
  match String c s with
  | String "+" b => (1, b)
  | String "-" b => (-1, b)
  | _ => (1, String c s)
  end = (1, String c s).
Proof.
  destruct c as [[|] [|] [|] [|] [|] [|] [|] [|]];
    try reflexivity; intros H; discriminate H.
Qed.

Lemma int_of_uint (d : uint) :
  d <> Nil -> Py.int (NilEmpty.string_of_uint d) = Ok (Z.of_uint d).
Proof.
  intros Hd. unfold Py.int.
  rewrite strip_chars_id
    by (apply all_chars_weaken with (p := Py.isdigit);
        [apply isdigit_not_int_isspace | apply digits_of_uint]).
  pose proof (digits_of_uint d) as Hdig.
  pose proof (int_digits_start d Hd) as Hval.
  destruct (NilEmpty.string_of_uint d) as [|c s] eqn:E.
  - destruct d; try congruence; discriminate E.
  - simpl in Hdig. apply andb_true_iff in Hdig as [Hc _].
    rewrite (unsigned_literal c s Hc), Hval, uint_value_0.
    f_equal. apply Z.mul_1_l.
Qed.

Lemma str_nonneg (n : N) :
  Py.str (Z.of_N n) = NilEmpty.string_of_uint (N.to_uint n) /\ N.to_uint n <> Nil.
Proof.
  destruct n as [|p]; [split; [reflexivity|discriminate]|].
  unfold Py.str; simpl.
  pose proof (Unsigned.to_uint_nonnil p) as Hp.
  split; [|exact Hp]. now destruct (Pos.to_uint p).
Qed.

(** [int(str(n)) == n]. *)
Theorem int_str (n : Z) : Py.int (Py.str n) = Ok n.
Proof.
  destruct n as [|p|p].
  - reflexivity.
  - destruct (str_nonneg (N.pos p)) as [Hs Hp].
    change (Z.of_N (N.pos p)) with (Z.pos p) in Hs.
    rewrite Hs, int_of_uint by exact Hp.
    f_equal. exact (DecimalZ.of_to (Z.pos p)).
  - unfold Py.str, Z.to_int, NilZero.string_of_int.
    pose proof (Unsigned.to_uint_nonnil p) as Hp.
    assert (Hs : NilZero.string_of_uint (Pos.to_uint p)
                 = NilEmpty.string_of_uint (Pos.to_uint p))
      by now destruct (Pos.to_uint p).
    rewrite Hs. unfold Py.int.
    rewrite strip_chars_id.
    + cbv beta iota. rewrite (int_digits_start _ Hp), uint_value_0.
      f_equal. change (Z.of_uint (Pos.to_uint p)) with (Z.of_int (Z.to_int (Z.pos p))).
      rewrite DecimalZ.of_to. reflexivity.
    + cbn [all_chars]. apply andb_true_iff; split; [reflexivity|].
      apply all_chars_weaken with (p := Py.isdigit);
        [apply isdigit_not_int_isspace | apply digits_of_uint].
Qed.

Lemma numeric_str (n : Z) : all_chars numeric (Py.str n) = true.
Proof.
  assert (Hd : forall d, all_chars numeric (NilZero.string_of_uint d) = true).
  { intros d. destruct d; try reflexivity;
      apply all_chars_weaken with (p := Py.isdigit);
      try apply (digits_of_uint (_ d));
      intros c Hc; unfold numeric; now rewrite Hc. }
  destruct n as [|p|p]; [reflexivity|apply Hd|].
  unfold Py.str. cbn [Z.to_int NilZero.string_of_int all_chars].
  now rewrite Hd.
Qed.

Lemma rmap_int_str (parts : list Z) : rmap Py.int (map Py.str parts) = Ok parts.
Proof.
  induction parts as [|n parts IH]; [reflexivity|].
  cbn [map rmap]. rewrite int_str, IH. reflexivity.
Qed.

End PyFacts.

(** * Versions and their rendering *)

Module VersionFacts.

Lemma numeric_not_v (c : ascii) :
  numeric c = true -> negb (Ascii.eqb "v" c) = true.
Proof.
  destruct c as [[|] [|] [|] [|] [|] [|] [|] [|]];
    intros H; first [reflexivity | discriminate H].
Qed.

Lemma numeric_not_dot (c : ascii) :
  numeric c = true -> negb (Ascii.eqb "." c) = true.
Proof.
  destruct c as [[|] [|] [|] [|] [|] [|] [|] [|]];
    intros H; first [reflexivity | discriminate H].
Qed.

(** The key of a rendered tuple is the tuple. *)
Lemma version_key_rendered (parts : list Z) :
  parts <> [] ->
  version_key ("v" ++ Py.join "." (map Py.str parts)) = Ok parts.
Proof.
  intros Hne. unfold version_key.
  change ("v" ++ Py.join "." (map Py.str parts))%string
    with (String "v" (Py.join "." (map Py.str parts))).
  rewrite PyFacts.strip_chars_head.
  - rewrite PyFacts.split_join.
    + apply PyFacts.rmap_int_str.
    + destruct parts; [congruence|discriminate].
    + apply Forall_forall. intros x Hx. apply in_map_iff in Hx as [n [<- _]].
      apply PyFacts.all_chars_weaken with (p := numeric);
        [apply numeric_not_dot | apply PyFacts.numeric_str].
  - reflexivity.
  - apply PyFacts.all_chars_join with (p := fun c => negb (Ascii.eqb "v" c));
      [reflexivity|].
    apply Forall_forall. intros x Hx. apply in_map_iff in Hx as [n [<- _]].
    apply PyFacts.all_chars_weaken with (p := numeric);
      [apply numeric_not_v | apply PyFacts.numeric_str].
Qed.

Lemma render_components (v : Version) :
  render v = ("v" ++ Py.join "." (map Py.str (components v)))%string.
Proof. reflexivity. Qed.

Lemma version_key_render (v : Version) : version_key (render v) = Ok (components v).
Proof.
  rewrite render_components. apply version_key_rendered. discriminate.
Qed.

Lemma render_inj (v w : Version) : render v = render w -> v = w.
Proof.
  intros H. pose proof (version_key_render v) as Hv.
  rewrite H, version_key_render in Hv.
  destruct v, w. unfold components in Hv; simpl in Hv.
  injection Hv as H1 H2 H3.
  apply N2Z.inj in H1, H2, H3. congruence.
Qed.

End VersionFacts.


(** * Results, tuples and the stable sort *)

Module ResultFacts.

Lemma rmap_ok_inv {A B : Type} (f : A -> result B) (xs : list A) (ys : list B) :
  rmap f xs = Ok ys -> Forall2 (fun x y => f x = Ok y) xs ys.
Proof.
  revert ys. induction xs as [|x xs IH]; intros ys; simpl.
  - intros [= <-]. constructor.
  - destruct (f x) as [y|e] eqn:Hx; simpl; [|discriminate].
    destruct (rmap f xs) as [ys'|e]; simpl; [|discriminate].
    intros [= <-]. constructor; [assumption|]. now apply IH.
Qed.

Lemma rmap_ok {A B : Type} (f : A -> result B) (xs : list A) :
  Forall (fun x => exists y, f x = Ok y) xs -> exists ys, rmap f xs = Ok ys.
Proof.
  induction 1 as [|x xs [y Hy] _ [ys Hys]]; simpl.
  - now exists [].
  - rewrite Hy, Hys. simpl. now exists (y :: ys).
Qed.

Lemma rmap_ok_all {A B : Type} (f : A -> result B) (xs : list A) (ys : list B) :
  rmap f xs = Ok ys -> Forall (fun x => exists y, f x = Ok y) xs.
Proof.
  intros H. apply rmap_ok_inv in H.
  induction H; constructor; eauto.
Qed.

(** When [f] can only raise [e], one failing element makes the whole
    comprehension raise [e]. *)
Lemma rmap_raise {A B : Type} (f : A -> result B) (e : exn) (xs : list A) :
  (forall x e', f x = Raise e' -> e' = e) ->
  Exists (fun x => exists e', f x = Raise e') xs ->
  rmap f xs = Raise e.
Proof.
  intros Hf. induction 1 as [x xs [e' Hx]|x xs _ IH]; simpl.
  - rewrite Hx. simpl. now rewrite (Hf _ _ Hx).
  - destruct (f x) as [y|e'] eqn:Hx; simpl.
    + now rewrite IH.
    + now rewrite (Hf _ _ Hx).
Qed.

Lemma rmap_permutation_ok {A B : Type} (f : A -> result B) (xs xs' : list A) :
  Permutation xs xs' ->
  (exists ys, rmap f xs = Ok ys) -> exists ys', rmap f xs' = Ok ys'.
Proof.
  intros Hp [ys Hys]. apply rmap_ok.
  apply rmap_ok_all in Hys.
  rewrite Forall_forall in *. intros x Hx. apply Hys.
  apply Permutation_in with (l := xs'); [now symmetry|assumption].
Qed.

End ResultFacts.

Module SortFacts.

Lemma tuple_lt_irrefl (a : list Z) : Py.tuple_lt a a = false.
Proof. induction a as [|x a IH]; simpl; [reflexivity|]. now rewrite Z.eqb_refl. Qed.

Lemma tuple_lt_asym (a b : list Z) :
  Py.tuple_lt a b = true -> Py.tuple_lt b a = false.
Proof.
  revert b. induction a as [|x a IH]; intros [|y b]; simpl; try easy.
  destruct (Z.eqb_spec x y) as [->|Hxy].
  - rewrite Z.eqb_refl. apply IH.
  - destruct (Z.eqb_spec y x) as [->|_]; [congruence|].
    intros H. apply Z.ltb_lt in H. apply Z.ltb_ge. lia.
Qed.

(** [a >= b] and [b >= c] give [a >= c]. *)
Lemma tuple_ge_trans (a b c : list Z) :
  Py.tuple_lt a b = false -> Py.tuple_lt b c = false -> Py.tuple_lt a c = false.
Proof.
  revert b c. induction a as [|x a IH]; intros [|y b] [|z c]; simpl; try easy.
  destruct (Z.eqb_spec x y) as [->|Hxy].
  - destruct (Z.eqb_spec y z) as [->|Hyz]; [apply IH|trivial].
  - destruct (Z.eqb_spec y z) as [->|Hyz].
    + destruct (Z.eqb_spec x z); [congruence|trivial].
    + intros H1 H2. apply Z.ltb_ge in H1, H2.
      destruct (Z.eqb_spec x z); [lia|]. apply Z.ltb_ge. lia.
Qed.

Lemma tuple_lt_3 (a b c a' b' c' : Z) :
  Py.tuple_lt [a; b; c] [a'; b'; c'] = true <->
  a < a' \/ a = a' /\ (b < b' \/ b = b' /\ c < c').
Proof.
  simpl.
  destruct (Z.eqb_spec a a'), (Z.eqb_spec b b'), (Z.eqb_spec c c');
    rewrite ?Z.ltb_lt; split; try lia; try discriminate.
Qed.

Lemma getitem_last_snoc {A : Type} (l : list A) (x : A) :
  Py.getitem_last (l ++ [x]) = Ok x.
Proof. unfold Py.getitem_last. now rewrite rev_app_distr. Qed.

Lemma getitem_last_cons {A : Type} (y : A) (l : list A) :
  l <> [] -> Py.getitem_last (y :: l) = Py.getitem_last l.
Proof.
  intros Hl. unfold Py.getitem_last. simpl.
  destruct (List.rev l) as [|z r] eqn:E; [|reflexivity].
  apply (f_equal (@List.rev A)) in E. rewrite rev_involutive in E. now subst.
Qed.

Lemma getitem_last_map {A B : Type} (f : A -> B) (l : list A) (m : A) :
  Py.getitem_last l = Ok m -> Py.getitem_last (map f l) = Ok (f m).
Proof.
  unfold Py.getitem_last. rewrite <- map_rev.
  destruct (List.rev l); simpl; [discriminate|]. now intros [= ->].
Qed.

Section Keyed.

Context {A : Type}.
Implicit Types (kx ky : list Z * A) (l s : list (list Z * A)).

Lemma insert_by_key_nonempty kx s : Py.insert_by_key kx s <> [].
Proof. destruct s as [|ky s]; simpl; [|destruct Py.tuple_lt]; discriminate. Qed.

Lemma insert_by_key_In kx s x : In x (Py.insert_by_key kx s) <-> x = kx \/ In x s.
Proof.
  induction s as [|ky s IH]; simpl.
  - intuition.
  - destruct Py.tuple_lt; simpl; [rewrite IH|]; intuition.
Qed.

Lemma sort_keyed_In l x : In x (Py.sort_keyed l) <-> In x l.
Proof.
  induction l as [|kx l IH]; simpl; [tauto|].
  rewrite insert_by_key_In, IH. intuition.
Qed.

(** Where the new element of an insertion ends up: last, above all the
    others, or before an element that is not below it, the last element
    staying the last. *)
Lemma insert_by_key_last kx s :
  (Py.getitem_last (Py.insert_by_key kx s) = Ok kx
   /\ forall ky, In ky s -> Py.tuple_lt (fst ky) (fst kx) = true)
  \/ (Py.getitem_last (Py.insert_by_key kx s) = Py.getitem_last s
      /\ exists ky, In ky s /\ Py.tuple_lt (fst ky) (fst kx) = false).
Proof.
  induction s as [|ky s IH]; simpl.
  - left. split; [reflexivity|contradiction].
  - destruct (Py.tuple_lt (fst ky) (fst kx)) eqn:Hlt.
    + rewrite getitem_last_cons by apply insert_by_key_nonempty.
      destruct IH as [[Hlast Hall]|[Hlast [ky0 [Hin Hge]]]].
      * left. split; [assumption|]. intros k [<-|Hk]; auto.
      * right. split.
        -- rewrite Hlast. symmetry. apply getitem_last_cons.
           intros ->. contradiction.
        -- exists ky0. auto.
    + right. split.
      * apply getitem_last_cons. discriminate.
      * exists ky. auto.
Qed.

(** The last element of the sorted list is an element of the list that
    no element exceeds. *)
Lemma sort_keyed_last l :
  l <> [] ->
  exists m, Py.getitem_last (Py.sort_keyed l) = Ok m /\ In m l
            /\ forall ky, In ky l -> Py.tuple_lt (fst m) (fst ky) = false.
Proof.
  induction l as [|kx l IH]; [congruence|]. intros _. simpl.
  destruct l as [|kx' l'].
  - exists kx. simpl. repeat split; auto.
    intros ky [<-|[]]. apply tuple_lt_irrefl.
  - destruct IH as [m [Hm [Hin Hmax]]]; [discriminate|].
    destruct (insert_by_key_last kx (Py.sort_keyed (kx' :: l')))
      as [[Hlast Hall]|[Hlast [ky0 [Hin0 Hge]]]].
    + exists kx. split; [assumption|]. split; [now left|].
      intros ky [<-|Hky]; [apply tuple_lt_irrefl|].
      apply tuple_lt_asym, Hall. now apply sort_keyed_In.
    + exists m. split; [now rewrite Hlast|]. split; [now right|].
      intros ky [<-|Hky]; [|now apply Hmax].
      apply tuple_ge_trans with (b := fst ky0); [|assumption].
      apply Hmax. now apply sort_keyed_In.
Qed.

End Keyed.

End SortFacts.

(** Tags with equal keys keep their order, and a shorter key that is a
    prefix comes first. *)
Example sorted_is_stable :
  Py.sorted version_key ["v1.0.0"; "v2.3.1"; "1.0.0"; "v1.0"; "v01.0.0"; "v1"]
  = Ok ["v1"; "v1.0"; "v1.0.0"; "1.0.0"; "v01.0.0"; "v2.3.1"].
Proof. reflexivity. Qed.


(** * What the methods do to a run *)

Module RunFacts.

Section Runs.

Variable datetime : Type.
Variable strptime : string -> string -> result datetime.
Implicit Types (s : Run datetime) (w : World).

Lemma fetch_tags_run w s : fetch_tags w s = (Ok (listed_tags w), s).
Proof.
  unfold fetch_tags, try_except_CalledProcessError, bind, check_output, lift,
    ret, listed_tags.
  now destruct (run w ["git"; "tag"]).
Qed.

Lemma get_current_version_run w s :
  get_current_version w s = (current_version_of (listed_tags w), s).
Proof.
  unfold get_current_version, bind. now rewrite fetch_tags_run.
Qed.

Lemma fetch_commit_messages_run w since s :
  fetch_commit_messages strptime w since s = (logged_commits strptime w since, s).
Proof.
  unfold fetch_commit_messages, logged_commits, bind, check_output, lift.
  now destruct (run w _).
Qed.

Lemma determine_next_version_run version s :
  determine_next_version version s = (next_version_of (self s) version, s).
Proof.
  unfold determine_next_version, next_version_of, version_key, bind, lift,
    get_self, ret.
  destruct (rmap Py.int _) as [parts|e]; simpl; [|reflexivity].
  now destruct (bump_parts (self s) parts).
Qed.

Lemma determine_version_bump_run s :
  determine_version_bump s = (Ok (bump_of (self s)), s).
Proof.
  unfold determine_version_bump, bump_of, bind, get_self, ret.
  now repeat destruct (_ >? 0).
Qed.

(** The pipeline, step by step: each step can end the run with its
    exception; a run that completes has written exactly one record. *)
Lemma write_version_details_to_file_run w branch labels s :
  write_version_details_to_file strptime w branch labels s =
  match current_version_of (listed_tags w) with
  | Raise e => (Raise e, s)
  | Ok current =>
      match logged_commits strptime w current with
      | Raise e => (Raise e, s)
      | Ok commits =>
          match next_version_of (self s) current with
          | Raise e => (Raise e, s)
          | Ok next =>
              match store w (artifact_directory branch) (artifact_path branch) with
              | MakedirsRaises => (Raise OSError, s)
              | OpenRaises =>
                  (Raise OSError, touch (Makedirs (artifact_directory branch)) s)
              | JsonRaises =>
                  (Raise TypeError,
                   touch (Truncate (artifact_path branch))
                     (touch (Makedirs (artifact_directory branch)) s))
              | WriteRaises =>
                  (Raise OSError,
                   touch (Truncate (artifact_path branch))
                     (touch (Makedirs (artifact_directory branch)) s))
              | Stored =>
                  (Ok ("Version details written to " ++ artifact_path branch)%string,
                   stored_in branch
                     {| current_version := current;
                        next_version := next;
                        bump_type := bump_of (self s);
                        commit_messages := commits;
                        tags := listed_tags w;
                        pr_labels := Py.split "," labels |} s)
              end
          end
      end
  end.
Proof.
  unfold write_version_details_to_file, bind.
  rewrite get_current_version_run.
  destruct (current_version_of (listed_tags w)) as [current|e]; [|reflexivity].
  rewrite fetch_commit_messages_run.
  destruct (logged_commits strptime w current) as [commits|e]; [|reflexivity].
  rewrite determine_next_version_run.
  destruct (next_version_of (self s) current) as [next|e]; [|reflexivity].
  rewrite determine_version_bump_run, fetch_tags_run.
  unfold write_json, ret, stored_in, artifact_directory, artifact_path.
  destruct (store w _ _); try reflexivity.
  unfold touch. cbn [self files printed touched].
  now rewrite <- app_assoc.
Qed.

(** No method assigns to an attribute of [self]. *)

Lemma set_git_config_self w email name s :
  self (snd (set_git_config w email name s)) = self s.
Proof.
  unfold set_git_config, bind, check_call, lift, ret.
  now repeat destruct (run w _).
Qed.

Lemma write_version_details_to_file_self w branch labels s :
  self (snd (write_version_details_to_file strptime w branch labels s)) = self s.
Proof.
  rewrite write_version_details_to_file_run.
  destruct (current_version_of _); [|reflexivity].
  destruct (logged_commits _ _ _); [|reflexivity].
  destruct (next_version_of _ _); [|reflexivity].
  now destruct (store w _ _).
Qed.

Lemma process_arguments_self w cl s :
  self (snd (process_arguments strptime w cl s)) = self s.
Proof.
  unfold process_arguments.
  destruct (config_git (parse_args cl)).
  - unfold bind. pose proof (set_git_config_self w "user@example.com" "GitHub User" s) as H.
    destruct (set_git_config _ _ _ s) as [[msg|e] s']; simpl in *; assumption.
  - destruct (branch_name (parse_args cl)) as [[|c b]|]; try reflexivity.
    unfold bind.
    pose proof (write_version_details_to_file_self w (String c b)
                  (pr_labels_arg (parse_args cl)) s) as H.
    destruct (write_version_details_to_file _ _ _ _ s) as [[msg|e] s'];
      simpl in *; assumption.
Qed.

End Runs.

(** With all counters at zero no branch of [determine_next_version] is
    taken. *)
Lemma bump_parts_init (parts : list Z) : bump_parts __init__ parts = Ok parts.
Proof. reflexivity. Qed.

Lemma next_version_of_init (version : string) :
  next_version_of __init__ version =
  rbind (version_key version) (fun parts =>
  Ok ("v" ++ Py.join "." (map Py.str parts))%string).
Proof.
  unfold next_version_of. now destruct (version_key version).
Qed.

Lemma split_at_nonempty (p : ascii -> bool) (s : string) : Py.split_at p s <> [].
Proof.
  destruct s as [|c s]; simpl; [discriminate|].
  destruct (p c); [discriminate|]. destruct (Py.split_at p s); discriminate.
Qed.

Lemma version_key_nonempty (x : string) (parts : list Z) :
  version_key x = Ok parts -> parts <> [].
Proof.
  unfold version_key, Py.split. intros H.
  apply ResultFacts.rmap_ok_inv in H.
  pose proof (split_at_nonempty (Ascii.eqb ".") (Py.strip_chars (Ascii.eqb "v") x)) as Hne.
  inversion H; subst; [congruence|discriminate].
Qed.

(** [int] raises nothing but [ValueError], and so does the sort key. *)
Lemma int_raises (x : string) (e : exn) : Py.int x = Raise e -> e = ValueError.
Proof.
  unfold Py.int.
  destruct (match Py.strip_chars Py.int_isspace x with
            | String "+" b => (1, b) | String "-" b => (-1, b)
            | _ => (1, Py.strip_chars Py.int_isspace x) end) as [sign body].
  destruct (Py.int_digits 0 false body); [discriminate|]. now intros [= <-].
Qed.

Lemma rmap_raises {A B : Type} (f : A -> result B) (e0 : exn) (xs : list A) (e : exn) :
  (forall x e', f x = Raise e' -> e' = e0) -> rmap f xs = Raise e -> e = e0.
Proof.
  intros Hf. induction xs as [|x xs IH]; simpl; [discriminate|].
  destruct (f x) as [y|e'] eqn:Hx; simpl.
  - destruct (rmap f xs); simpl; [discriminate|].
    intros [= <-]. now apply IH.
  - intros [= <-]. eauto.
Qed.

Lemma version_key_raises (x : string) (e : exn) :
  version_key x = Raise e -> e = ValueError.
Proof. apply rmap_raises. apply int_raises. Qed.

End RunFacts.


(** * The current version *)

Module TagFacts.

Lemma Forall2_In_r {A B : Type} (R : A -> B -> Prop) (xs : list A) (ys : list B) (y : B) :
  Forall2 R xs ys -> In y ys -> exists x, In x xs /\ R x y.
Proof.
  induction 1 as [|x0 y0 xs ys HR _ IH]; simpl; [contradiction|].
  intros [<-|Hy]; [exists x0; auto|].
  destruct (IH Hy) as [x [Hx HRx]]. exists x. auto.
Qed.

Lemma Forall2_In_l {A B : Type} (R : A -> B -> Prop) (xs : list A) (ys : list B) (x : A) :
  Forall2 R xs ys -> In x xs -> exists y, In y ys /\ R x y.
Proof.
  induction 1 as [|x0 y0 xs ys HR _ IH]; simpl; [contradiction|].
  intros [<-|Hx]; [exists y0; auto|].
  destruct (IH Hx) as [y [Hy HRy]]. exists y. auto.
Qed.

(** A tag has a key or its key raises [ValueError]. *)
Lemma version_key_cases (t : string) :
  (exists k, version_key t = Ok k) \/ version_key t = Raise ValueError.
Proof.
  destruct (version_key t) as [k|e] eqn:H; [left; eauto|right].
  now rewrite (RunFacts.version_key_raises _ _ H).
Qed.

Lemma tags_cases (tags : list string) :
  Forall (fun t => exists k, version_key t = Ok k) tags
  \/ Exists (fun t => version_key t = Raise ValueError) tags.
Proof.
  induction tags as [|t tags [IH|IH]].
  - left. constructor.
  - destruct (version_key_cases t) as [Hk|He].
    + left. now constructor.
    + right. now constructor.
  - right. now constructor 2.
Qed.

(** One tag without a key and [get_current_version] raises. *)
Lemma current_version_of_raise (tags : list string) :
  Exists (fun t => version_key t = Raise ValueError) tags ->
  current_version_of tags = Raise ValueError.
Proof.
  intros H. destruct tags as [|t tags]; [inversion H|].
  unfold current_version_of, Py.sorted.
  rewrite ResultFacts.rmap_raise with (e := ValueError); [reflexivity| |].
  - intros x e. destruct (version_key x) eqn:Hx; simpl; [discriminate|].
    intros [= <-]. now apply RunFacts.version_key_raises in Hx.
  - apply Exists_exists in H as [x [Hin Hx]]. apply Exists_exists.
    exists x. split; [assumption|]. exists ValueError. now rewrite Hx.
Qed.

(** When every tag has a key, the tag returned is in the collection
    and no key exceeds its key. *)
Lemma current_version_of_max (tags : list string) :
  tags <> [] ->
  Forall (fun t => exists k, version_key t = Ok k) tags ->
  exists t k, current_version_of tags = Ok t /\ In t tags
              /\ version_key t = Ok k
              /\ forall u ku, In u tags -> version_key u = Ok ku ->
                              Py.tuple_lt k ku = false.
Proof.
  intros Hne Hall.
  set (g := fun x : string => rbind (version_key x) (fun k => Ok (k, x))).
  assert (Hg : forall x y, g x = Ok y -> version_key x = Ok (fst y) /\ snd y = x).
  { intros x y. unfold g. destruct (version_key x); simpl; [|discriminate].
    now intros [= <-]. }
  destruct (ResultFacts.rmap_ok g tags) as [keyed Hkeyed].
  { apply Forall_impl with (2 := Hall). intros x [k Hk].
    exists (k, x). unfold g. now rewrite Hk. }
  pose proof (ResultFacts.rmap_ok_inv _ _ _ Hkeyed) as HF.
  assert (Hkne : keyed <> []).
  { intros ->. inversion HF. congruence. }
  destruct (SortFacts.sort_keyed_last keyed Hkne) as [m [Hlast [Hin Hmax]]].
  destruct (Forall2_In_r _ _ _ _ HF Hin) as [t [Ht Hgt]].
  apply Hg in Hgt as [Hkey Hsnd].
  exists t, (fst m). repeat split; try assumption.
  - destruct tags as [|t0 tags]; [congruence|].
    unfold current_version_of, Py.sorted. fold g. rewrite Hkeyed. simpl.
    rewrite <- Hsnd. now apply SortFacts.getitem_last_map.
  - intros u ku Hu Hku.
    destruct (Forall2_In_l _ _ _ _ HF Hu) as [y [Hy Hgy]].
    apply Hg in Hgy as [Hkey' _].
    rewrite Hku in Hkey'. injection Hkey' as ->.
    now apply Hmax.
Qed.

(** The specification's reading of a tag and the sort key of the code
    agree where the former is defined. *)

Lemma decimal_int_digits (s : string) (acc n : N) :
  decimal s acc = Some n ->
  all_chars Py.isdigit s = true
  /\ Py.int_digits (Z.of_N acc) true s = Some (Z.of_N n).
Proof.
  revert acc. induction s as [|c s IH]; intros acc; cbn [decimal].
  - intros [= <-]. split; reflexivity.
  - cbn [all_chars Py.int_digits]. unfold Py.isdigit, Py.digit_value.
    destruct ((48 <=? N_of_ascii c) && (N_of_ascii c <=? 57))%N eqn:Hc;
      [|discriminate].
    intros H. destruct (IH _ H) as [Hall Hint]. split; [exact Hall|].
    rewrite <- Hint. f_equal.
    apply andb_true_iff in Hc as [Hlo _]. apply N.leb_le in Hlo. lia.
Qed.

Lemma number_int (s : string) (n : N) :
  number s = Some n ->
  all_chars Py.isdigit s = true /\ Py.int s = Ok (Z.of_N n).
Proof.
  destruct s as [|c s]; [discriminate|]. unfold number. intros H.
  destruct (decimal_int_digits _ _ _ H) as [Hall Hint]. split; [exact Hall|].
  unfold Py.int.
  rewrite PyFacts.strip_chars_id
    by (apply PyFacts.all_chars_weaken with (p := Py.isdigit);
        [apply PyFacts.isdigit_not_int_isspace | exact Hall]).
  cbn [all_chars] in Hall. apply andb_true_iff in Hall as [Hc Hs].
  rewrite (PyFacts.unsigned_literal c s Hc).
  cbn [Py.int_digits] in Hint |- *. rewrite Hc in Hint |- *.
  change (Z.of_N 0) with 0 in Hint. rewrite Hint.
  f_equal. apply Z.mul_1_l.
Qed.

Lemma dotted_split (s : string) :
  Py.split "." s = fst (dotted s) :: snd (dotted s).
Proof.
  unfold Py.split. induction s as [|c s IH]; [reflexivity|].
  cbn [Py.split_at dotted]. rewrite IH.
  destruct (dotted s) as [x xs]. rewrite (Ascii.eqb_sym "." c).
  now destruct (Ascii.eqb c ".").
Qed.

Lemma dotted_chars (q : ascii -> bool) (s : string) :
  q "."%char = true ->
  all_chars q (fst (dotted s)) = true ->
  Forall (fun x => all_chars q x = true) (snd (dotted s)) ->
  all_chars q s = true.
Proof.
  intros Hq. induction s as [|c s IH]; [reflexivity|].
  cbn [dotted all_chars]. destruct (dotted s) as [x xs].
  destruct (Ascii.eqb_spec c ".") as [->|Hc]; cbn [fst snd].
  - intros _ H. inversion H; subst. rewrite Hq. now apply IH.
  - cbn [all_chars]. intros H1 H2. apply andb_true_iff in H1 as [Hqc Hx].
    rewrite Hqc. now apply IH.
Qed.

Lemma digits_not_v (s : string) :
  all_chars Py.isdigit s = true ->
  all_chars (fun c => negb (Ascii.eqb "v" c)) s = true.
Proof.
  apply PyFacts.all_chars_weaken. intros c Hc.
  apply VersionFacts.numeric_not_v. unfold numeric. now rewrite Hc.
Qed.

Lemma tag_version_key (t : string) (v : Version) :
  tag_version t = Some v -> version_key t = Ok (components v).
Proof.
  unfold tag_version. pose proof (dotted_split (unprefixed t)) as Hsplit.
  pose proof (dotted_chars (fun c => negb (Ascii.eqb "v" c)) (unprefixed t)
                eq_refl) as Hchars.
  destruct (dotted (unprefixed t)) as [a [|b [|c [|d l]]]]; try discriminate.
  destruct (number a) as [x|] eqn:Ha; [|discriminate].
  destruct (number b) as [y|] eqn:Hb; [|discriminate].
  destruct (number c) as [z|] eqn:Hc; [|discriminate].
  intros [= <-].
  apply number_int in Ha as [Hda Ha], Hb as [Hdb Hb], Hc as [Hdc Hc].
  cbn [fst snd] in Hsplit, Hchars.
  assert (Hbody : all_chars (fun c => negb (Ascii.eqb "v" c)) (unprefixed t) = true).
  { apply Hchars; [now apply digits_not_v|].
    repeat constructor; now apply digits_not_v. }
  assert (Hstrip : Py.strip_chars (Ascii.eqb "v") t = unprefixed t).
  { destruct t as [|c0 rest]; [reflexivity|]. unfold unprefixed in *.
    destruct (Ascii.eqb_spec c0 "v") as [->|Hc0].
    - now apply PyFacts.strip_chars_head.
    - now apply PyFacts.strip_chars_id. }
  unfold version_key. rewrite Hstrip, Hsplit. cbn [rmap].
  rewrite Ha, Hb, Hc. reflexivity.
Qed.

(** Every rendered version is read as the version it renders. *)

Lemma decimal_total (s : string) (acc : N) :
  all_chars Py.isdigit s = true -> exists n, decimal s acc = Some n.
Proof.
  revert acc. induction s as [|c s IH]; intros acc; cbn [decimal all_chars].
  - eauto.
  - unfold Py.isdigit at 1. intros H. apply andb_true_iff in H as [Hc Hs].
    rewrite Hc. now apply IH.
Qed.

Lemma number_str (n : N) : number (Py.str (Z.of_N n)) = Some n.
Proof.
  destruct (PyFacts.str_nonneg n) as [-> Hn].
  pose proof (PyFacts.digits_of_uint (N.to_uint n)) as Hd.
  pose proof (PyFacts.int_digits_of_uint (N.to_uint n) 0) as Hint.
  assert (Hs : number (NilEmpty.string_of_uint (N.to_uint n))
               = decimal (NilEmpty.string_of_uint (N.to_uint n)) 0).
  { destruct (N.to_uint n); [congruence|reflexivity..]. }
  rewrite Hs. destruct (decimal_total _ 0%N Hd) as [m Hm]. rewrite Hm.
  apply decimal_int_digits in Hm as [_ Hm]. change (Z.of_N 0) with 0 in Hm.
  rewrite Hint, PyFacts.uint_value_0 in Hm. injection Hm as Hm.
  unfold Z.of_uint in Hm. apply N2Z.inj in Hm.
  change (Pos.of_uint (N.to_uint n)) with (N.of_uint (N.to_uint n)) in Hm.
  rewrite DecimalN.Unsigned.of_to in Hm. now subst.
Qed.

Lemma dotted_whole (x : string) :
  all_chars (fun c => negb (Ascii.eqb "." c)) x = true -> dotted x = (x, []).
Proof.
  induction x as [|c x IH]; [reflexivity|]. cbn [all_chars dotted].
  intros H. apply andb_true_iff in H as [Hc Hx]. rewrite (IH Hx).
  rewrite Ascii.eqb_sym. apply negb_true_iff in Hc. now rewrite Hc.
Qed.

Lemma dotted_app (x r : string) :
  all_chars (fun c => negb (Ascii.eqb "." c)) x = true ->
  dotted (x ++ String "." r) = (x, fst (dotted r) :: snd (dotted r)).
Proof.
  induction x as [|c x IH]; cbn [all_chars append dotted].
  - intros _. now destruct (dotted r).
  - intros H. apply andb_true_iff in H as [Hc Hx]. rewrite (IH Hx).
    rewrite Ascii.eqb_sym. apply negb_true_iff in Hc. now rewrite Hc.
Qed.

Lemma tag_version_render (v : Version) : tag_version (render v) = Some v.
Proof.
  assert (Hnodot : forall n, all_chars (fun c => negb (Ascii.eqb "." c))
                               (Py.str n) = true).
  { intros n. apply PyFacts.all_chars_weaken with (p := numeric);
      [apply VersionFacts.numeric_not_dot | apply PyFacts.numeric_str]. }
  destruct v as [a b c]. unfold tag_version, render.
  cbn [major minor patch].
  change (unprefixed ("v" ++ Py.str (Z.of_N a) ++ "." ++ Py.str (Z.of_N b)
                          ++ "." ++ Py.str (Z.of_N c)))
    with (Py.str (Z.of_N a)
          ++ String "." (Py.str (Z.of_N b) ++ String "." (Py.str (Z.of_N c))))%string.
  rewrite dotted_app by apply Hnodot.
  rewrite dotted_app by apply Hnodot.
  rewrite dotted_whole by apply Hnodot.
  cbn [fst snd]. now rewrite !number_str.
Qed.

Lemma components_ge (v w : Version) :
  Py.tuple_lt (components v) (components w) = false -> Version_le w v.
Proof.
  intros H. unfold Version_le, Version_lt.
  destruct v as [a b c], w as [a' b' c']. unfold components in H. simpl in *.
  assert (Hn : ~ (Z.of_N a < Z.of_N a'
                  \/ Z.of_N a = Z.of_N a'
                     /\ (Z.of_N b < Z.of_N b'
                         \/ Z.of_N b = Z.of_N b' /\ Z.of_N c < Z.of_N c'))).
  { intros Hlt. apply SortFacts.tuple_lt_3 in Hlt. simpl in Hlt. congruence. }
  destruct (N.eq_dec a a') as [->|Ha];
    [destruct (N.eq_dec b b') as [->|Hb];
     [destruct (N.eq_dec c c') as [->|Hc]|]|].
  - now right.
  - left. right. split; [reflexivity|]. right. split; [reflexivity|]. lia.
  - left. right. split; [reflexivity|]. left. lia.
  - left. left. lia.
Qed.

End TagFacts.


(** * The next version *)

Module NextFacts.

(** On a rendered version the code follows the priority rule. *)
Lemma next_version_of_render (g : GithubWorkflow) (v : Version) :
  next_version_of g (render v) = Ok (render (fst (spec_next_version v g))).
Proof.
  unfold next_version_of. rewrite VersionFacts.version_key_render.
  unfold spec_next_version, bump_parts, components.
  destruct v as [a b c]; simpl major; simpl minor; simpl patch.
  destruct (breaking_count g >? 0); [|destruct (minor_count g >? 0);
    [|destruct (patch_count g >? 0)]];
    cbn [rbind Py.getitem Py.setitem nth_error fst];
    rewrite VersionFacts.render_components; unfold components;
    cbn [major minor patch]; rewrite ?N2Z.inj_add; reflexivity.
Qed.

Lemma bump_of_spec (g : GithubWorkflow) (v : Version) :
  bump_of g = snd (spec_next_version v g).
Proof.
  unfold bump_of, spec_next_version.
  now repeat destruct (_ >? 0).
Qed.

Lemma spec_next_version_le (g : GithubWorkflow) (v : Version) :
  Version_le v (fst (spec_next_version v g)).
Proof.
  unfold spec_next_version, Version_le, Version_lt.
  destruct v as [a b c].
  destruct (breaking_count g >? 0); [|destruct (minor_count g >? 0);
    [|destruct (patch_count g >? 0)]]; simpl; try (left; lia). now right.
Qed.

Lemma spec_next_version_eq (g : GithubWorkflow) (v : Version) :
  fst (spec_next_version v g) = v <-> snd (spec_next_version v g) = "None".
Proof.
  unfold spec_next_version. destruct v as [a b c].
  destruct (breaking_count g >? 0); [|destruct (minor_count g >? 0);
    [|destruct (patch_count g >? 0)]]; simpl; split; intros H;
    try reflexivity; try discriminate H; injection H; lia.
Qed.

End NextFacts.


(** * The claims of the specification *)

(** ** C1: the scenario of tag [v1.2.3] with [feat: add X] and [fix: typo] *)

(** C1, as the code has it.  With the current version [v1.2.3] and the
    counters breaking 0, minor 1, patch 1, the bump type is [Minor] and
    the next version is [v1.3.0].  The pipeline itself classifies no
    commit message: run on the tag [v1.2.3] and the two commits
    [feat: add X] and [fix: typo], it leaves the counters at 0, 0, 0 and
    records the bump type [None] and the next version [v1.2.3]. *)
Theorem feat_fix_scenario :
  (forall (datetime : Type) (fs : list (string * VersionDetails datetime))
          (ps : list string) (ds : list effect),
      let s := {| self := {| minor_count := 1; patch_count := 1;
                             breaking_count := 0 |};
                  files := fs; printed := ps; touched := ds |} in
      determine_version_bump s = (Ok "Minor", s)
      /\ determine_next_version "v1.2.3" s = (Ok "v1.3.0", s))
  /\ exists commits,
      map message commits = ["feat: add X"; "fix: typo"]
      /\ write_version_details_to_file strptime_git repo_feat_fix "main" "" fresh
         = (Ok "Version details written to .artifacts/main/version_details.json",
            {| self := {| minor_count := 0; patch_count := 0;
                          breaking_count := 0 |};
               files := [(".artifacts/main/version_details.json",
                          {| current_version := "v1.2.3";
                             next_version := "v1.2.3";
                             bump_type := "None";
                             commit_messages := commits;
                             tags := ["v1.2.3"];
                             pr_labels := [""] |})];
               printed := [];
               touched := [Makedirs ".artifacts/main";
                           Truncate ".artifacts/main/version_details.json"] |}).
Proof.
  split.
  - intros datetime fs ps ds s. split; reflexivity.
  - eexists. split.
    2: { vm_compute. reflexivity. }
    reflexivity.
Qed.

(** The run of the scenario completes, on the current version [v1.2.3]
    and the two commit messages, and none of the three results of the
    claim is produced. *)
Lemma feat_fix_pipeline_counterexample :
  exists msg st path r,
    write_version_details_to_file strptime_git repo_feat_fix "main" "" fresh
    = (Ok msg, st)
    /\ files st = [(path, r)]
    /\ current_version r = "v1.2.3"
    /\ map message (commit_messages r) = ["feat: add X"; "fix: typo"]
    /\ minor_count (self st) <> 1
    /\ patch_count (self st) <> 1
    /\ bump_type r <> "Minor"
    /\ next_version r <> "v1.3.0".
Proof.
  do 4 eexists. split; [vm_compute; reflexivity|].
  repeat split; try reflexivity; simpl; discriminate.
Qed.

(** ** C2: a breaking change dominates *)

(** C2, as the code has it.  Whenever [breaking_count] is positive the
    bump class is [Major], whatever [minor_count] and [patch_count] are
    (the counters themselves are never raised by a commit message). *)
Theorem breaking_count_dominates (datetime : Type) (s : Run datetime) :
  breaking_count (self s) > 0 ->
  determine_version_bump s = (Ok "Major", s).
Proof.
  intros H. rewrite RunFacts.determine_version_bump_run. unfold bump_of.
  destruct (Z.gtb_spec (breaking_count (self s)) 0); [reflexivity|lia].
Qed.

Lemma breaking_count_dominates_witness :
  let s : Run git_date :=
    {| self := {| minor_count := 4; patch_count := 7; breaking_count := 1 |};
       files := []; printed := []; touched := [] |} in
  breaking_count (self s) > 0 /\ determine_version_bump s = (Ok "Major", s).
Proof.
  intros s. split; [reflexivity|].
  apply (breaking_count_dominates git_date s). reflexivity.
Defined.

(** A commit that carries both breaking markers, beside a minor-level
    and a patch-level commit: the run completes, [breaking_count] is
    still 0 and the bump is not [Major]. *)
Lemma breaking_marker_counterexample :
  exists msg st path r,
    write_version_details_to_file strptime_git repo_breaking "main" "" fresh
    = (Ok msg, st)
    /\ files st = [(path, r)]
    /\ map message (commit_messages r)
       = ["feat!: BREAKING CHANGE drop the old API"; "feat: add X"; "fix: typo"]
    /\ breaking_count (self st) = 0
    /\ bump_type r = "None"
    /\ bump_type r <> "Major".
Proof.
  do 4 eexists. split; [vm_compute; reflexivity|].
  repeat split; try reflexivity. simpl. discriminate.
Qed.

(** ** C3: the counters of a fresh object never move *)

(** C3, as the code has it.  No method changes the counters, so a run
    that starts from a freshly constructed object ends with the counters
    at zero, whatever the repository and the command line, and on such
    an object [determine_version_bump] returns [None].
    [determine_next_version] does not return the version it is given:
    it raises [ValueError] on a version with a component that is not an
    integer, and otherwise returns [v] followed by the integers of the
    version, joined by dots.  That string has the integers of the
    version it was given, and is that version when the version is the
    rendering [vMAJOR.MINOR.PATCH] of three non-negative integers.  A
    completed run of the pipeline has recorded the bump type [None] and
    such a next version. *)
Theorem fresh_counters_never_move
    (datetime : Type) (strptime : string -> string -> result datetime)
    (w : World) :
  (forall (s : Run datetime) cl,
      self (snd (process_arguments strptime w cl s)) = self s)
  /\ (forall (s : Run datetime) branch labels,
      self (snd (write_version_details_to_file strptime w branch labels s)) = self s)
  /\ (forall (s : Run datetime) email name,
      self (snd (set_git_config w email name s)) = self s)
  /\ (forall (s : Run datetime) version,
      snd (fetch_tags w s) = s
      /\ snd (get_current_version w s) = s
      /\ snd (fetch_commit_messages strptime w version s) = s
      /\ snd (determine_next_version version s) = s
      /\ snd (determine_version_bump s) = s)
  /\ (forall cl, self (snd (main strptime w cl)) = __init__)
  /\ determine_version_bump (@fresh datetime) = (Ok "None", fresh)
  /\ (forall version : string,
      determine_next_version version (@fresh datetime)
      = match version_key version with
        | Ok parts => (Ok ("v" ++ Py.join "." (map Py.str parts))%string, fresh)
        | Raise _ => (Raise ValueError, fresh)
        end)
  /\ (forall (version next : string) (st : Run datetime),
      determine_next_version version fresh = (Ok next, st) ->
      version_key next = version_key version)
  /\ (forall v : Version,
      determine_next_version (render v) (@fresh datetime) = (Ok (render v), fresh))
  /\ (forall branch labels,
      match write_version_details_to_file strptime w branch labels fresh with
      | (Ok _, st) =>
          self st = __init__
          /\ exists r,
              files st = [(artifact_path branch, r)]
              /\ bump_type r = "None"
              /\ version_key (next_version r) = version_key (current_version r)
              /\ (exists parts,
                    version_key (current_version r) = Ok parts
                    /\ next_version r
                       = ("v" ++ Py.join "." (map Py.str parts))%string)
              /\ forall v : Version,
                  current_version r = render v -> next_version r = render v
      | (Raise _, st) => self st = __init__ /\ files st = [] /\ printed st = []
      end).
Proof.
  assert (Hnext : forall version : string,
             determine_next_version version (@fresh datetime)
             = match version_key version with
               | Ok parts =>
                   (Ok ("v" ++ Py.join "." (map Py.str parts))%string, fresh)
               | Raise _ => (Raise ValueError, fresh)
               end).
  { intros version. rewrite RunFacts.determine_next_version_run.
    change (self fresh) with __init__. rewrite RunFacts.next_version_of_init.
    destruct (version_key version) as [parts|e] eqn:Hkey; [reflexivity|].
    now rewrite (RunFacts.version_key_raises _ _ Hkey). }
  repeat split.
  - intros. apply RunFacts.process_arguments_self.
  - intros. apply RunFacts.write_version_details_to_file_self.
  - intros. apply RunFacts.set_git_config_self.
  - now rewrite RunFacts.fetch_tags_run.
  - now rewrite RunFacts.get_current_version_run.
  - now rewrite RunFacts.fetch_commit_messages_run.
  - now rewrite RunFacts.determine_next_version_run.
  - now rewrite RunFacts.determine_version_bump_run.
  - intros. unfold main. now rewrite RunFacts.process_arguments_self.
  - exact Hnext.
  - intros version next st. rewrite Hnext.
    destruct (version_key version) as [parts|e] eqn:Hkey; [|discriminate].
    intros [= <- _]. apply VersionFacts.version_key_rendered.
    now apply RunFacts.version_key_nonempty in Hkey.
  - intros v. rewrite Hnext, VersionFacts.version_key_render. reflexivity.
  - intros branch labels.
    rewrite RunFacts.write_version_details_to_file_run.
    destruct (current_version_of (listed_tags w)) as [current|e];
      [|repeat split].
    destruct (logged_commits strptime w current) as [commits|e];
      [|repeat split].
    change (self fresh) with __init__.
    rewrite RunFacts.next_version_of_init.
    destruct (version_key current) as [parts|e] eqn:Hkey; [|repeat split].
    cbn [rbind]. destruct (store w _ _); try (repeat split; fail).
    split; [reflexivity|].
    eexists. split; [reflexivity|]. cbn [bump_type next_version current_version].
    split; [reflexivity|]. split; [|split].
    + rewrite Hkey. apply VersionFacts.version_key_rendered.
      now apply RunFacts.version_key_nonempty in Hkey.
    + exists parts. split; [exact Hkey|reflexivity].
    + intros v ->. rewrite VersionFacts.version_key_render in Hkey.
      injection Hkey as <-. reflexivity.
Qed.

(** The version [1.2.3], a tag without the prefix: the counters are at
    zero and the bump is [None], and [determine_next_version] returns
    [v1.2.3], which is not the version it was given; the run of the
    pipeline on that tag records the two different strings. *)
Lemma unprefixed_version_counterexample :
  determine_version_bump (@fresh git_date) = (Ok "None", fresh)
  /\ determine_next_version "1.2.3" (@fresh git_date) = (Ok "v1.2.3", fresh)
  /\ "v1.2.3" <> "1.2.3"
  /\ exists msg st path r,
      write_version_details_to_file strptime_git
        (repository ("1.2.3" ++ newline) "1.2.3"
           ("1a410ef|Bob|bob@example.com|Fri Apr 8 09:02:41 2005 +0200|typo"
            ++ newline))
        "main" "" fresh
      = (Ok msg, st)
      /\ files st = [(path, r)]
      /\ self st = __init__
      /\ bump_type r = "None"
      /\ current_version r = "1.2.3"
      /\ next_version r = "v1.2.3"
      /\ next_version r <> current_version r.
Proof.
  split; [reflexivity|]. split; [reflexivity|]. split; [discriminate|].
  do 4 eexists. split; [vm_compute; reflexivity|].
  repeat split; try reflexivity. simpl. discriminate.
Qed.

(** ** C4: tags that are not versions *)

(** C4, as the code has it.  [get_current_version] excludes no tag.  On
    a non-empty collection it either raises [ValueError], and then some
    tag has a component that is not an integer, or returns a tag, and
    then every tag has a key of integers, of whatever length, and no key
    exceeds the key of the tag returned.  A tag with a component that is
    not an integer always makes it raise. *)
Theorem tags_are_not_filtered (tags : list string) :
  tags <> [] ->
  match current_version_of tags with
  | Raise e =>
      e = ValueError
      /\ Exists (fun t => version_key t = Raise ValueError) tags
  | Ok t =>
      Forall (fun u => exists k, version_key u = Ok k) tags
      /\ In t tags
      /\ exists k, version_key t = Ok k
                   /\ forall u ku, In u tags -> version_key u = Ok ku ->
                                   Py.tuple_lt k ku = false
  end
  /\ (Exists (fun t => version_key t = Raise ValueError) tags ->
      current_version_of tags = Raise ValueError).
Proof.
  intros Hne. split; [|apply TagFacts.current_version_of_raise].
  destruct (TagFacts.tags_cases tags) as [Hall|Hbad].
  - destruct (TagFacts.current_version_of_max tags Hne Hall)
      as [t [k [-> [Hin [Hk Hmax]]]]].
    repeat split; try assumption. exists k. auto.
  - rewrite (TagFacts.current_version_of_raise tags Hbad). auto.
Qed.

Lemma tags_are_not_filtered_witness :
  ["v1.0.0"; "v2.3.1"; "not-a-version"] <> []
  /\ current_version_of ["v1.0.0"; "v2.3.1"; "not-a-version"] = Raise ValueError
  /\ current_version_of ["v1.0.0"; "v2.3.1"; "v3"] = Ok "v3".
Proof.
  split; [discriminate|]. split.
  - apply (tags_are_not_filtered ["v1.0.0"; "v2.3.1"; "not-a-version"]);
      [discriminate|].
    apply Exists_cons_tl, Exists_cons_tl, Exists_cons_hd. reflexivity.
  - reflexivity.
Defined.

(** The tag set of the claim: the malformed tag is not ignored, the call
    raises, from the list of tags as from the repository that lists
    them. *)
Lemma malformed_tag_counterexample :
  current_version_of ["v1.0.0"; "v2.3.1"; "not-a-version"] = Raise ValueError
  /\ current_version_of ["v1.0.0"; "v2.3.1"; "not-a-version"] <> Ok "v2.3.1"
  /\ get_current_version
       (repository ("not-a-version" ++ newline ++ "v1.0.0" ++ newline
                    ++ "v2.3.1" ++ newline) "v2.3.1" "")
       (@fresh git_date)
     = (Raise ValueError, fresh).
Proof. repeat split; try reflexivity. discriminate. Qed.

(** ** C5: the current version is the greatest tag *)

(** C5.  When every tag parses as a version of three non-negative
    integers, [get_current_version] returns a tag of the collection whose
    version is greater than or equal to the version of every tag, in the
    lexicographic order; on the empty collection it returns [v0.0.0]. *)
Theorem current_version_is_greatest (tags : list string) :
  Forall (fun t => tag_version t <> None) tags ->
  match tags with
  | [] => current_version_of tags = Ok "v0.0.0"
  | _ :: _ =>
      exists t v,
        current_version_of tags = Ok t /\ In t tags /\ tag_version t = Some v
        /\ forall u vu, In u tags -> tag_version u = Some vu -> Version_le vu v
  end
  /\ forall (datetime : Type) (w : World) (s : Run datetime),
      listed_tags w = tags ->
      get_current_version w s = (current_version_of tags, s).
Proof.
  intros Hvalid. split.
  2: { intros datetime w s <-. apply RunFacts.get_current_version_run. }
  destruct tags as [|t0 tags']; [reflexivity|].
  set (tags := t0 :: tags') in *.
  assert (Hkeys : Forall (fun t => exists k, version_key t = Ok k) tags).
  { apply Forall_impl with (2 := Hvalid). intros t Ht.
    destruct (tag_version t) as [v|] eqn:Hv; [|congruence].
    exists (components v). now apply TagFacts.tag_version_key. }
  destruct (TagFacts.current_version_of_max tags) as [t [k [Hcur [Hin [Hk Hmax]]]]];
    [discriminate|assumption|].
  rewrite Forall_forall in Hvalid.
  destruct (tag_version t) as [v|] eqn:Hv; [|exfalso; exact (Hvalid t Hin Hv)].
  exists t, v. repeat split; try assumption.
  intros u vu Hu Hvu. apply TagFacts.components_ge.
  apply TagFacts.tag_version_key in Hv, Hvu.
  rewrite Hk in Hv. injection Hv as <-. exact (Hmax u _ Hu Hvu).
Qed.

Lemma current_version_is_greatest_witness :
  Forall (fun t => tag_version t <> None) ["v1.0.0"; "v10.0.0"; "v2.3.1"; "v9.12.0"]
  /\ current_version_of ["v1.0.0"; "v10.0.0"; "v2.3.1"; "v9.12.0"] = Ok "v10.0.0"
  /\ exists t v,
      current_version_of ["v1.0.0"; "v10.0.0"; "v2.3.1"; "v9.12.0"] = Ok t
      /\ In t ["v1.0.0"; "v10.0.0"; "v2.3.1"; "v9.12.0"]
      /\ tag_version t = Some v
      /\ v = {| major := 10; minor := 0; patch := 0 |}
      /\ forall u vu, In u ["v1.0.0"; "v10.0.0"; "v2.3.1"; "v9.12.0"] ->
                      tag_version u = Some vu -> Version_le vu v.
Proof.
  assert (H : Forall (fun t => tag_version t <> None)
                ["v1.0.0"; "v10.0.0"; "v2.3.1"; "v9.12.0"])
    by (repeat constructor; vm_compute; discriminate).
  split; [exact H|]. split; [reflexivity|].
  destruct (proj1 (current_version_is_greatest _ H)) as [t [v [Ht [Hin [Hv Hmax]]]]].
  exists t, v. repeat split; try assumption.
  assert (Et : t = "v10.0.0") by (vm_compute in Ht; congruence).
  subst t. vm_compute in Hv. congruence.
Defined.

(** ** C6: the priority rule *)

(** C6.  For every version (major, minor, patch) and every counter
    state, [determine_next_version] and [determine_version_bump] follow
    the priority rule: (major+1, 0, 0) and [Major] when [breaking_count]
    is positive; else (major, minor+1, 0) and [Minor] when [minor_count]
    is positive; else (major, minor, patch+1) and [Patch] when
    [patch_count] is positive; else the version unchanged and [None]. *)
Theorem next_version_follows_priority_rule
    (datetime : Type) (v : Version) (s : Run datetime) :
  determine_next_version (render v) s
  = (Ok (render (fst (spec_next_version v (self s)))), s)
  /\ determine_version_bump s = (Ok (snd (spec_next_version v (self s))), s).
Proof.
  rewrite RunFacts.determine_next_version_run, RunFacts.determine_version_bump_run.
  now rewrite NextFacts.next_version_of_render, <- NextFacts.bump_of_spec.
Qed.

(** ** C7: the next version is not below the current one *)

(** C7.  For every version and every counter state the next version is
    greater than or equal to the current version in the lexicographic
    order, and equal exactly when the bump class is [None]. *)
Theorem next_version_not_below_current
    (datetime : Type) (v : Version) (s : Run datetime) :
  exists v',
    determine_next_version (render v) s = (Ok (render v'), s)
    /\ Version_le v v'
    /\ (v' = v <-> fst (determine_version_bump s) = Ok "None")
    /\ (render v' = render v <-> fst (determine_version_bump s) = Ok "None").
Proof.
  exists (fst (spec_next_version v (self s))).
  rewrite RunFacts.determine_next_version_run, RunFacts.determine_version_bump_run.
  rewrite NextFacts.next_version_of_render, (NextFacts.bump_of_spec _ v).
  cbn [fst]. split; [reflexivity|]. split; [apply NextFacts.spec_next_version_le|].
  assert (Heq : fst (spec_next_version v (self s)) = v
                <-> Ok (snd (spec_next_version v (self s))) = Ok "None").
  { rewrite NextFacts.spec_next_version_eq. split; [now intros ->|now intros [= ->]]. }
  split; [exact Heq|].
  rewrite <- Heq. split; [apply VersionFacts.render_inj|now intros ->].
Qed.

(** ** C8: the order of the commits does not matter *)

(** C8.  Two runs of the pipeline on repositories that have the same
    tags and whose logs list the same commits in a different order either
    both raise or both complete, and then record the same bump class and
    the same next version. *)
Theorem commit_order_is_irrelevant
    (datetime : Type) (strptime : string -> string -> result datetime)
    (w w' : World) (branch labels : string) (s : Run datetime) :
  same_commits_reordered w w' ->
  decision (write_version_details_to_file strptime w branch labels s)
  = decision (write_version_details_to_file strptime w' branch labels s).
Proof.
  intros [Hstore [Htags Hlog]].
  rewrite !RunFacts.write_version_details_to_file_run.
  assert (Hl : listed_tags w = listed_tags w')
    by (unfold listed_tags; now rewrite Htags).
  rewrite <- Hl.
  destruct (current_version_of (listed_tags w)) as [current|e]; [|reflexivity].
  specialize (Hlog current). unfold logged_commits. clear Htags Hl.
  destruct (run w _) as [raw|n], (run w' _) as [raw'|n'];
    try contradiction; [|reflexivity].
  destruct (rmap _ (log_lines raw)) as [commits|e] eqn:Hc,
           (rmap _ (log_lines raw')) as [commits'|e'] eqn:Hc'.
  - destruct (next_version_of (self s) current); [|reflexivity].
    rewrite <- Hstore. destruct (store w _ _); try reflexivity.
    unfold decision, stored_in. cbn [fst snd files]. now rewrite !map_app.
  - destruct (ResultFacts.rmap_permutation_ok _ _ _ Hlog (ex_intro _ _ Hc));
      congruence.
  - destruct (ResultFacts.rmap_permutation_ok _ _ _ (Permutation_sym Hlog)
                (ex_intro _ _ Hc')); congruence.
  - reflexivity.
Qed.

Lemma commit_order_is_irrelevant_witness :
  same_commits_reordered repo_feat_fix repo_fix_feat
  /\ decision (write_version_details_to_file strptime_git repo_feat_fix
                 "main" "" fresh)
     = decision (write_version_details_to_file strptime_git repo_fix_feat
                   "main" "" fresh).
Proof.
  assert (H : same_commits_reordered repo_feat_fix repo_fix_feat).
  { split; [reflexivity|]. split; [reflexivity|]. intros since.
    unfold repo_feat_fix, repo_fix_feat, repository. cbn [run].
    destruct (String.eqb _ _); [|exact I].
    vm_compute. apply perm_swap. }
  split; [exact H|].
  exact (commit_order_is_irrelevant git_date strptime_git _ _ "main" "" fresh H).
Defined.

(** ** C9: a failing tag listing *)

(** C9.  When [git tag] fails, [fetch_tags] returns the empty list and
    raises nothing, so that [get_current_version] returns [v0.0.0]. *)
Theorem failed_tag_listing_is_no_tags
    (datetime : Type) (w : World) (s : Run datetime) (status : Z) :
  run w ["git"; "tag"] = ExitNonZero status ->
  fetch_tags w s = (Ok [], s)
  /\ get_current_version w s = (Ok "v0.0.0", s).
Proof.
  intros H.
  rewrite RunFacts.get_current_version_run, RunFacts.fetch_tags_run.
  unfold listed_tags. rewrite H. split; reflexivity.
Qed.

Lemma failed_tag_listing_is_no_tags_witness :
  run (broken_tag_listing "") ["git"; "tag"] = ExitNonZero 128
  /\ fetch_tags (broken_tag_listing "") (@fresh git_date) = (Ok [], fresh)
  /\ get_current_version (broken_tag_listing "") (@fresh git_date)
     = (Ok "v0.0.0", fresh).
Proof.
  split; [reflexivity|].
  apply (failed_tag_listing_is_no_tags git_date (broken_tag_listing "") fresh 128).
  reflexivity.
Defined.

(** ** C10: the labels of an empty [--pr-labels] *)

(** C10.  Splitting the empty string at the commas gives the list of one
    empty string, not the empty list; the empty string is what the
    [--pr-labels] option defaults to, and the record of a completed run
    on it has the one-element list as its [pr_labels]. *)
Theorem empty_labels_is_one_empty_label :
  Py.split "," "" = [""]
  /\ Py.split "," "" <> []
  /\ (forall config branch,
      pr_labels_arg (parse_args {| opt_config_git := config;
                                   opt_branch_name := branch;
                                   opt_pr_labels := None |}) = "")
  /\ forall (datetime : Type) (strptime : string -> string -> result datetime)
            (w : World) (branch : string) (s : Run datetime),
      match write_version_details_to_file strptime w branch "" s with
      | (Ok _, st) =>
          exists r, files st = (files s ++ [(artifact_path branch, r)])%list
                    /\ pr_labels r = [""]
      | (Raise _, st) =>
          self st = self s /\ files st = files s /\ printed st = printed s
      end.
Proof.
  split; [reflexivity|]. split; [discriminate|]. split; [reflexivity|].
  intros datetime strptime w branch s.
  rewrite RunFacts.write_version_details_to_file_run.
  destruct (current_version_of _); [|repeat split].
  destruct (logged_commits _ _ _); [|repeat split].
  destruct (next_version_of _ _); [|repeat split].
  destruct (store w _ _); try (repeat split; fail).
  eexists. split; reflexivity.
Qed.


(** * Further properties of the code *)

Module SplitFacts.

Lemma split_at_pieces (p : ascii -> bool) (s : string) :
  Forall (fun x => all_chars (fun c => negb (p c)) x = true) (Py.split_at p s).
Proof.
  induction s as [|c s IH]; simpl; [repeat constructor|].
  destruct (p c) eqn:Hc; [now constructor|].
  destruct (Py.split_at p s) as [|x xs]; [repeat constructor; simpl; now rewrite Hc|].
  inversion IH; subst. constructor; [|assumption].
  simpl. now rewrite Hc.
Qed.

Lemma split_at_length (p : ascii -> bool) (s : string) :
  List.length (Py.split_at p s) = S (count_chars p s).
Proof.
  induction s as [|c s IH]; simpl; [reflexivity|].
  destruct (p c); simpl; [now rewrite IH|].
  destruct (Py.split_at p s); simpl in *; [discriminate|assumption].
Qed.

Lemma split_at_head (p : ascii -> bool) (s : string) :
  exists rest, Py.split_at p s = up_to p s :: rest.
Proof.
  induction s as [|c s [rest IH]]; simpl; [now exists []|].
  destruct (p c); [eauto|]. rewrite IH. eauto.
Qed.

(** [sep.join(s.split(sep)) == s]. *)
Lemma join_split (sep : ascii) (s : string) :
  Py.join (String sep EmptyString) (Py.split sep s) = s.
Proof.
  unfold Py.join, Py.split.
  induction s as [|c s IH]; simpl; [reflexivity|].
  pose proof (RunFacts.split_at_nonempty (Ascii.eqb sep) s) as Hne.
  destruct (Ascii.eqb_spec sep c) as [<-|Hc].
  - destruct (Py.split_at (Ascii.eqb sep) s) as [|y ys]; [congruence|].
    change (concat (String sep "") ("" :: y :: ys))
      with (String sep (concat (String sep "") (y :: ys))).
    now rewrite IH.
  - destruct (Py.split_at (Ascii.eqb sep) s) as [|y ys]; [congruence|].
    destruct ys as [|z zs]; simpl in *; now rewrite IH.
Qed.

Lemma lstrip_all (p : ascii -> bool) (s : string) :
  all_chars p s = true -> Py.lstrip p s = "".
Proof.
  induction s as [|c s IH]; simpl; [reflexivity|].
  intros H. apply andb_true_iff in H as [Hc Hs]. rewrite Hc. auto.
Qed.

Lemma split_whitespace_words (s : string) :
  Forall (fun t => t <> "" /\ all_chars (fun c => negb (Py.isspace c)) t = true)
         (Py.split_whitespace s).
Proof.
  unfold Py.split_whitespace. apply Forall_forall. intros t Ht.
  apply filter_In in Ht as [Hin Hne]. split.
  - intros ->. discriminate.
  - pose proof (split_at_pieces Py.isspace s) as H.
    rewrite Forall_forall in H. now apply H.
Qed.

End SplitFacts.

(** ** The command line *)

(** X1.  With [--config-git] the branch name and the labels are ignored and
    no file is written: when both [git config] commands succeed the one
    line [Git configuration set successfully.] is printed, and when one
    of them fails [CalledProcessError] is raised and nothing is
    printed. *)
Theorem config_git_takes_precedence
    (datetime : Type) (strptime : string -> string -> result datetime)
    (w : World) (branch labels : option string) (s : Run datetime) :
  process_arguments strptime w
    {| opt_config_git := true; opt_branch_name := branch;
       opt_pr_labels := labels |} s
  = match run w ["git"; "config"; "--global"; "user.email"; "user@example.com"],
          run w ["git"; "config"; "--global"; "user.name"; "GitHub User"] with
    | Exit0 _, Exit0 _ =>
        (Ok tt, {| self := self s; files := files s;
                   printed := printed s ++ ["Git configuration set successfully."];
                   touched := touched s |})
    | _, _ => (Raise CalledProcessError, s)
    end.
Proof.
  unfold process_arguments, parse_args. cbn [config_git].
  unfold set_git_config, bind, check_call, lift, ret, print.
  destruct (run w ["git"; "config"; "--global"; "user.email"; "user@example.com"]);
    [|reflexivity].
  now destruct (run w ["git"; "config"; "--global"; "user.name"; "GitHub User"]).
Qed.




(** X4.  A failing [git log] is not recovered: the pipeline raises
    [CalledProcessError] and writes nothing. *)
Theorem failed_log_is_fatal
    (datetime : Type) (strptime : string -> string -> result datetime)
    (w : World) (branch labels current : string) (status : Z)
    (s : Run datetime) :
  current_version_of (listed_tags w) = Ok current ->
  run w (log_command current) = ExitNonZero status ->
  fetch_commit_messages strptime w current s = (Raise CalledProcessError, s)
  /\ write_version_details_to_file strptime w branch labels s
     = (Raise CalledProcessError, s).
Proof.
  intros Hcur Hlog.
  rewrite RunFacts.write_version_details_to_file_run,
    RunFacts.fetch_commit_messages_run, Hcur.
  unfold logged_commits. unfold log_command in Hlog. rewrite Hlog.
  split; reflexivity.
Qed.

(** In a repository without tags the log is asked for [v0.0.0..HEAD];
    where that range names no revision the run fails. *)
Lemma failed_log_is_fatal_witness :
  current_version_of (listed_tags repo_untagged) = Ok "v0.0.0"
  /\ run repo_untagged (log_command "v0.0.0") = ExitNonZero 128
  /\ write_version_details_to_file strptime_git repo_untagged "main" "" fresh
     = (Raise CalledProcessError, fresh).
Proof.
  split; [reflexivity|]. split; [reflexivity|].
  apply (failed_log_is_fatal git_date strptime_git repo_untagged
           "main" "" "v0.0.0" 128 fresh); reflexivity.
Defined.

(** ** The commit log *)

Module LogFacts.

Lemma commit_detail_of_line_ok {datetime : Type}
    (strptime : string -> string -> result datetime)
    (line : string) (c : CommitDetail datetime) :
  commit_detail_of_line strptime line = Ok c ->
  exists hash ad rest,
    Py.split "|" line = hash :: author c :: email c :: ad :: message c :: rest
    /\ strptime ad "%a %b %d %H:%M:%S %Y %z" = Ok (date c).
Proof.
  unfold commit_detail_of_line.
  destruct (Py.split "|" line) as [|h [|a [|e [|d [|m rest]]]]];
    try discriminate.
  cbn [Py.getitem nth_error rbind].
  destruct (strptime d _) as [dt|x] eqn:Hd; [|discriminate].
  cbn [rbind]. intros [= <-]. exists h, d, rest. split; [reflexivity|exact Hd].
Qed.

Lemma split_log_line (hash name mail ad subject : string) :
  all_chars (fun c => negb (Ascii.eqb "|" c)) hash = true ->
  all_chars (fun c => negb (Ascii.eqb "|" c)) name = true ->
  all_chars (fun c => negb (Ascii.eqb "|" c)) mail = true ->
  all_chars (fun c => negb (Ascii.eqb "|" c)) ad = true ->
  Py.split "|" (log_line hash name mail ad subject)
  = hash :: name :: mail :: ad :: Py.split "|" subject.
Proof.
  intros Hh Hn Hm Ha. unfold log_line, Py.split.
  assert (Hbar : forall x, ("|" ++ x)%string = String "|" x) by reflexivity.
  rewrite !Hbar.
  rewrite (PyFacts.split_at_app _ hash) by (trivial; reflexivity).
  rewrite (PyFacts.split_at_app _ name) by (trivial; reflexivity).
  rewrite (PyFacts.split_at_app _ mail) by (trivial; reflexivity).
  rewrite (PyFacts.split_at_app _ ad) by (trivial; reflexivity).
  reflexivity.
Qed.

End LogFacts.

(** X5.  The records [fetch_commit_messages] returns follow the log: one
    record for each non-empty line of the output, in the order of the
    lines, with the second, third and fifth field of the line as author,
    email and message and the fourth field parsed as the date. *)
Theorem fetched_commits_follow_the_log
    (datetime : Type) (strptime : string -> string -> result datetime)
    (w : World) (since : string) (s st : Run datetime)
    (commits : list (CommitDetail datetime)) :
  fetch_commit_messages strptime w since s = (Ok commits, st) ->
  st = s
  /\ exists raw,
      run w (log_command since) = Exit0 raw
      /\ Forall2
           (fun line c =>
              line <> ""
              /\ exists hash ad rest,
                  Py.split "|" line
                  = hash :: author c :: email c :: ad :: message c :: rest
                  /\ strptime ad "%a %b %d %H:%M:%S %Y %z" = Ok (date c))
           (log_lines raw) commits.
Proof.
  rewrite RunFacts.fetch_commit_messages_run. intros [= H <-].
  split; [reflexivity|]. unfold logged_commits in H. unfold log_command.
  destruct (run w _) as [raw|n]; [|discriminate].
  exists raw. split; [reflexivity|].
  apply ResultFacts.rmap_ok_inv in H.
  assert (Hne : Forall (fun line => line <> "") (log_lines raw)).
  { unfold log_lines. apply Forall_forall. intros x Hx.
    apply filter_In in Hx as [_ Hx]. intros ->. discriminate. }
  induction H as [|line c ls cs Hline _ IH]; constructor.
  - inversion Hne; subst. split; [assumption|].
    now apply LogFacts.commit_detail_of_line_ok.
  - apply IH. now inversion Hne.
Qed.

Lemma fetched_commits_follow_the_log_witness :
  exists commits,
    fetch_commit_messages strptime_git repo_feat_fix "v1.2.3" fresh
    = (Ok commits, fresh)
    /\ map message commits = ["feat: add X"; "fix: typo"]
    /\ map author commits = ["Ada"; "Bob"]
    /\ exists raw,
        run repo_feat_fix (log_command "v1.2.3") = Exit0 raw
        /\ Forall2
             (fun line c =>
                line <> ""
                /\ exists hash ad rest,
                    Py.split "|" line
                    = hash :: author c :: email c :: ad :: message c :: rest
                    /\ strptime_git ad "%a %b %d %H:%M:%S %Y %z" = Ok (date c))
             (log_lines raw) commits.
Proof.
  eexists. split; [vm_compute; reflexivity|].
  split; [reflexivity|]. split; [reflexivity|].
  eapply (fetched_commits_follow_the_log git_date strptime_git repo_feat_fix
            "v1.2.3" fresh fresh).
  vm_compute. reflexivity.
Defined.

(** X6.  A first line of the log with fewer than four [|] has no fifth
    field: [fetch_commit_messages] raises [IndexError]. *)
Theorem short_log_line_raises_IndexError
    (datetime : Type) (strptime : string -> string -> result datetime)
    (w : World) (since raw line : string) (rest : list string)
    (s : Run datetime) :
  run w (log_command since) = Exit0 raw ->
  log_lines raw = line :: rest ->
  (count_chars (Ascii.eqb "|") line < 4)%nat ->
  fetch_commit_messages strptime w since s = (Raise IndexError, s).
Proof.
  intros Hrun Hlines Hshort.
  rewrite RunFacts.fetch_commit_messages_run. unfold logged_commits.
  unfold log_command in Hrun. rewrite Hrun, Hlines. f_equal.
  cbn [rmap]. unfold commit_detail_of_line, Py.getitem.
  assert (Hnone : nth_error (Py.split "|" line) 4 = None).
  { apply nth_error_None. unfold Py.split.
    rewrite SplitFacts.split_at_length. lia. }
  now rewrite Hnone.
Qed.

Lemma short_log_line_raises_IndexError_witness :
  run (repository "" "v0.0.0" "9fceb02 feat: add X") (log_command "v0.0.0")
  = Exit0 "9fceb02 feat: add X"
  /\ log_lines "9fceb02 feat: add X" = ["9fceb02 feat: add X"]
  /\ (count_chars (Ascii.eqb "|") "9fceb02 feat: add X" < 4)%nat
  /\ fetch_commit_messages strptime_git
       (repository "" "v0.0.0" "9fceb02 feat: add X") "v0.0.0" fresh
     = (Raise IndexError, fresh).
Proof.
  split; [reflexivity|]. split; [reflexivity|]. split; [vm_compute; lia|].
  apply (short_log_line_raises_IndexError git_date strptime_git
           (repository "" "v0.0.0" "9fceb02 feat: add X") "v0.0.0"
           "9fceb02 feat: add X" "9fceb02 feat: add X" [] fresh);
    [reflexivity|reflexivity|vm_compute; lia].
Defined.

(** X7.  The message of a record is the fifth field of its line: a subject
    that holds a [|] is cut at its first [|]. *)
Theorem subject_is_cut_at_first_bar
    (datetime : Type) (strptime : string -> string -> result datetime)
    (hash name mail ad subject : string) (d : datetime) :
  all_chars (fun c => negb (Ascii.eqb "|" c)) hash = true ->
  all_chars (fun c => negb (Ascii.eqb "|" c)) name = true ->
  all_chars (fun c => negb (Ascii.eqb "|" c)) mail = true ->
  all_chars (fun c => negb (Ascii.eqb "|" c)) ad = true ->
  strptime ad "%a %b %d %H:%M:%S %Y %z" = Ok d ->
  commit_detail_of_line strptime (log_line hash name mail ad subject)
  = Ok {| message := up_to (Ascii.eqb "|") subject;
          author := name; email := mail; date := d |}.
Proof.
  intros Hh Hn Hm Ha Hd. unfold commit_detail_of_line.
  rewrite LogFacts.split_log_line by assumption.
  destruct (SplitFacts.split_at_head (Ascii.eqb "|") subject) as [rest Hs].
  unfold Py.split. rewrite Hs.
  cbn [Py.getitem nth_error rbind]. rewrite Hd. reflexivity.
Qed.

Lemma subject_is_cut_at_first_bar_witness :
  exists d,
    strptime_git "Thu Apr 7 15:13:13 2005 -0700" "%a %b %d %H:%M:%S %Y %z" = Ok d
    /\ commit_detail_of_line strptime_git
         (log_line "9fceb02" "Ada" "ada@example.com"
            "Thu Apr 7 15:13:13 2005 -0700" "fix: a|b in the parser")
       = Ok {| message := "fix: a"; author := "Ada";
               email := "ada@example.com"; date := d |}.
Proof.
  eexists. split; [vm_compute; reflexivity|].
  apply (subject_is_cut_at_first_bar git_date strptime_git
           "9fceb02" "Ada" "ada@example.com"
           "Thu Apr 7 15:13:13 2005 -0700" "fix: a|b in the parser");
    reflexivity.
Defined.

(** ** The next version of an arbitrary string *)

Module BumpFacts.

Lemma setitem_raises {A : Type} (xs : list A) (i : nat) (v : A) (e : exn) :
  Py.setitem xs i v = Raise e -> e = IndexError.
Proof.
  revert i. induction xs as [|x xs IH]; intros [|i]; simpl;
    try (now intros [= <-]); try discriminate.
  destruct (Py.setitem xs i v) eqn:H; simpl; [discriminate|].
  intros [= <-]. eauto.
Qed.

Lemma setitem_length {A : Type} (xs ys : list A) (i : nat) (v : A) :
  Py.setitem xs i v = Ok ys -> List.length ys = List.length xs.
Proof.
  revert i ys. induction xs as [|x xs IH]; intros [|i] ys; simpl;
    try discriminate.
  - now intros [= <-].
  - destruct (Py.setitem xs i v) as [r|] eqn:H; simpl; [|discriminate].
    intros [= <-]. simpl. f_equal. eauto.
Qed.

Lemma getitem_raises {A : Type} (xs : list A) (i : nat) (e : exn) :
  Py.getitem xs i = Raise e -> e = IndexError.
Proof. unfold Py.getitem. destruct (nth_error xs i); [discriminate|now intros [= <-]]. Qed.

(** The assignments to [parts] raise nothing but [IndexError]. *)
Lemma rbind_raises {A B : Type} (r : result A) (f : A -> result B) (e : exn) :
  rbind r f = Raise e ->
  r = Raise e \/ exists a, r = Ok a /\ f a = Raise e.
Proof. destruct r; cbn [rbind]; intros H; [right; eauto|left; congruence]. Qed.

Lemma rbind_ok {A B : Type} (r : result A) (f : A -> result B) (b : B) :
  rbind r f = Ok b -> exists a, r = Ok a /\ f a = Ok b.
Proof. destruct r; cbn [rbind]; intros H; [eauto|discriminate]. Qed.

Lemma bump_parts_raises (g : GithubWorkflow) (parts : list Z) (e : exn) :
  bump_parts g parts = Raise e -> e = IndexError.
Proof.
  unfold bump_parts. intros H.
  repeat match type of H with
         | (if ?b then _ else _) = _ => destruct b
         end;
    try discriminate;
    repeat match goal with
           | H : rbind _ _ = Raise _ |- _ =>
               apply rbind_raises in H; destruct H as [H|[? [_ H]]]
           end;
    first [now apply setitem_raises in H | now apply getitem_raises in H].
Qed.

Lemma bump_parts_length (g : GithubWorkflow) (parts parts' : list Z) :
  bump_parts g parts = Ok parts' -> List.length parts' = List.length parts.
Proof.
  unfold bump_parts. intros H.
  repeat match type of H with
         | (if ?b then _ else _) = _ => destruct b
         end;
    repeat match goal with
           | H : rbind _ _ = Ok _ |- _ =>
               apply rbind_ok in H; destruct H as [? [? H]]
           end;
    repeat match goal with
           | H : Py.setitem _ _ _ = Ok _ |- _ => apply setitem_length in H
           end;
    congruence.
Qed.

Lemma bump_parts_three (g : GithubWorkflow) (a b c : Z) (rest : list Z) :
  bump_parts g (a :: b :: c :: rest) = Ok (bumped g a b c ++ rest)%list.
Proof.
  unfold bump_parts, bumped.
  now repeat destruct (_ >? 0).
Qed.

End BumpFacts.

(** X8.  [determine_next_version] raises [ValueError] exactly on the strings
    that have a component that is not an integer, whatever the counters
    are, also when no bump is due. *)
Theorem next_version_rejects_non_integers
    (datetime : Type) (version : string) (s : Run datetime) :
  determine_next_version version s = (Raise ValueError, s)
  <-> version_key version = Raise ValueError.
Proof.
  rewrite RunFacts.determine_next_version_run. unfold next_version_of.
  destruct (version_key version) as [parts|e] eqn:Hkey; cbn [rbind].
  - split; [|discriminate].
    destruct (bump_parts (self s) parts) as [parts'|e] eqn:Hb; cbn [rbind];
      [discriminate|].
    apply BumpFacts.bump_parts_raises in Hb. subst e. discriminate.
  - apply RunFacts.version_key_raises in Hkey. subst e. tauto.
Qed.

(** X9.  A version with fewer than three components cannot be bumped: when
    one of the counters is positive, [determine_next_version] raises
    [IndexError]. *)
Theorem short_version_cannot_be_bumped
    (datetime : Type) (version : string) (parts : list Z) (s : Run datetime) :
  version_key version = Ok parts ->
  (List.length parts < 3)%nat ->
  fst (determine_version_bump s) <> Ok "None" ->
  determine_next_version version s = (Raise IndexError, s).
Proof.
  intros Hkey Hlen Hbump.
  rewrite RunFacts.determine_version_bump_run in Hbump.
  rewrite RunFacts.determine_next_version_run. unfold next_version_of.
  rewrite Hkey. cbn [rbind fst] in *. unfold bump_of in Hbump. unfold bump_parts.
  destruct parts as [|a [|b [|c rest]]]; [| | |simpl in Hlen; lia];
    destruct (breaking_count (self s) >? 0); try reflexivity;
    destruct (minor_count (self s) >? 0); try reflexivity;
    destruct (patch_count (self s) >? 0); try reflexivity;
    congruence.
Qed.

Lemma short_version_cannot_be_bumped_witness :
  let s : Run git_date :=
    {| self := {| minor_count := 0; patch_count := 1; breaking_count := 0 |};
       files := []; printed := []; touched := [] |} in
  version_key "v1.2" = Ok [1; 2]
  /\ determine_version_bump s = (Ok "Patch", s)
  /\ determine_next_version "v1.2" s = (Raise IndexError, s).
Proof.
  intros s. split; [reflexivity|]. split; [reflexivity|].
  apply (short_version_cannot_be_bumped git_date "v1.2" [1; 2] s);
    [reflexivity|simpl; lia|discriminate].
Defined.

(** X10.  On a version of three or more components the priority rule applies
    to the first three and the components after the third are kept. *)
Theorem components_after_the_third_are_kept
    (datetime : Type) (version : string) (a b c : Z) (rest : list Z)
    (s : Run datetime) :
  version_key version = Ok (a :: b :: c :: rest) ->
  determine_next_version version s
  = (Ok ("v" ++ Py.join "." (map Py.str (bumped (self s) a b c ++ rest)%list)),
     s).
Proof.
  intros Hkey. rewrite RunFacts.determine_next_version_run.
  unfold next_version_of. rewrite Hkey. cbn [rbind].
  now rewrite BumpFacts.bump_parts_three.
Qed.

Lemma components_after_the_third_are_kept_witness :
  let s : Run git_date :=
    {| self := {| minor_count := 1; patch_count := 5; breaking_count := 0 |};
       files := []; printed := []; touched := [] |} in
  version_key "v1.2.3.4" = Ok [1; 2; 3; 4]
  /\ determine_next_version "v1.2.3.4" s = (Ok "v1.3.0.4", s).
Proof.
  intros s. split; [reflexivity|].
  exact (components_after_the_third_are_kept git_date "v1.2.3.4" 1 2 3 [4] s
           eq_refl).
Defined.

(** X11.  Whatever the spelling of the current version, the string that
    [determine_next_version] returns is in the canonical form: its key is
    the tuple that was computed, of as many components as the input has,
    and with all counters at zero the function returns it unchanged. *)
Theorem next_version_is_canonical
    (datetime : Type) (version next : string) (s st : Run datetime) :
  determine_next_version version s = (Ok next, st) ->
  st = s
  /\ (exists parts parts',
        version_key version = Ok parts
        /\ bump_parts (self s) parts = Ok parts'
        /\ List.length parts' = List.length parts
        /\ version_key next = Ok parts')
  /\ forall fs ps ds,
      let s0 : Run datetime :=
        {| self := __init__; files := fs; printed := ps; touched := ds |} in
      determine_next_version next s0 = (Ok next, s0).
Proof.
  rewrite RunFacts.determine_next_version_run. unfold next_version_of.
  destruct (version_key version) as [parts|e] eqn:Hkey; [|discriminate].
  cbn [rbind].
  destruct (bump_parts (self s) parts) as [parts'|e] eqn:Hb; [|discriminate].
  cbn [rbind]. intros [= <- <-].
  pose proof (BumpFacts.bump_parts_length _ _ _ Hb) as Hlen.
  assert (Hne : parts' <> []).
  { apply RunFacts.version_key_nonempty in Hkey.
    destruct parts; [congruence|]. destruct parts'; [discriminate|discriminate]. }
  pose proof (VersionFacts.version_key_rendered parts' Hne) as Hk'.
  split; [reflexivity|]. split.
  - exists parts, parts'. auto.
  - intros fs ps ds. rewrite RunFacts.determine_next_version_run.
    cbn [self].
    change (String "v" (Py.join "." (map Py.str parts')))
      with ("v" ++ Py.join "." (map Py.str parts'))%string.
    rewrite RunFacts.next_version_of_init, Hk'.
    reflexivity.
Qed.

Lemma next_version_is_canonical_witness :
  let s : Run git_date :=
    {| self := {| minor_count := 0; patch_count := 2; breaking_count := 0 |};
       files := []; printed := []; touched := [] |} in
  determine_next_version " 01.2.+3" s = (Ok "v1.2.4", s)
  /\ version_key "v1.2.4" = Ok [1; 2; 4]
  /\ determine_next_version "v1.2.4" (@fresh git_date) = (Ok "v1.2.4", fresh).
Proof.
  intros s.
  assert (H : determine_next_version " 01.2.+3" s = (Ok "v1.2.4", s))
    by reflexivity.
  split; [exact H|].
  destruct (next_version_is_canonical git_date _ _ _ _ H)
    as [_ [[parts [parts' [Hk [Hb [_ Hk']]]]] Hfix]].
  split; [reflexivity|]. exact (Hfix [] [] []).
Defined.

(** ** The tags and the current version *)

Module WordFacts.

Lemma split_whitespace_lstrip (s : string) :
  Py.split_whitespace (Py.lstrip Py.isspace s) = Py.split_whitespace s.
Proof.
  unfold Py.split_whitespace.
  induction s as [|c s IH]; [reflexivity|].
  cbn [Py.lstrip Py.split_at].
  destruct (Py.isspace c) eqn:Hc; [|cbn [Py.split_at]; now rewrite Hc].
  cbn [filter Py.nonempty]. exact IH.
Qed.

Lemma split_at_cons (p : ascii -> bool) (c : ascii) (s : string) :
  Py.split_at p (String c s)
  = if p c then "" :: Py.split_at p s
    else match Py.split_at p s with
         | x :: xs => String c x :: xs
         | [] => [String c ""]
         end.
Proof. reflexivity. Qed.

(** Removing trailing separators changes no piece but empty ones. *)
Lemma split_at_rstrip (p : ascii -> bool) (s : string) :
  exists x xs xs',
    Py.split_at p s = x :: xs
    /\ Py.split_at p (Py.rstrip p s) = x :: xs'
    /\ filter Py.nonempty xs = filter Py.nonempty xs'.
Proof.
  induction s as [|c s (x & xs & xs' & Hs & Hr & Hf)].
  - exists "", [], []. repeat split.
  - cbn [Py.rstrip]. rewrite split_at_cons, Hs.
    destruct (Py.rstrip p s) as [|a r] eqn:Hrs.
    + cbn [Py.split_at] in Hr. injection Hr as <- <-.
      destruct (p c) eqn:Hc.
      * exists "", ("" :: xs), []. repeat split. cbn [filter Py.nonempty].
        exact Hf.
      * exists (String c ""), xs, []. repeat split.
        -- cbn [Py.split_at]. now rewrite Hc.
        -- exact Hf.
    + rewrite (split_at_cons p c (String a r)), Hr.
      destruct (p c).
      * exists "", (x :: xs), (x :: xs'). repeat split.
        cbn [filter]. now rewrite Hf.
      * exists (String c x), xs, xs'. repeat split. exact Hf.
Qed.

(** [s.strip().split() == s.split()]. *)
Lemma split_whitespace_strip (s : string) :
  Py.split_whitespace (Py.strip s) = Py.split_whitespace s.
Proof.
  unfold Py.strip, Py.strip_chars.
  rewrite <- (split_whitespace_lstrip s).
  unfold Py.split_whitespace.
  destruct (split_at_rstrip Py.isspace (Py.lstrip Py.isspace s))
    as (x & xs & xs' & Hs & Hr & Hf).
  rewrite Hs, Hr. cbn [filter]. now rewrite Hf.
Qed.

Lemma split_whitespace_lines (ts : list string) :
  Forall word ts -> Py.split_whitespace (one_per_line ts) = ts.
Proof.
  unfold Py.split_whitespace.
  induction 1 as [|t ts [Hne Ht] _ IH]; [reflexivity|].
  cbn [one_per_line]. unfold newline.
  change (String "010" "" ++ one_per_line ts)%string
    with (String "010" (one_per_line ts)).
  rewrite PyFacts.split_at_app by (trivial; reflexivity).
  cbn [filter]. rewrite IH.
  destruct t; [congruence|reflexivity].
Qed.

Lemma split_whitespace_blank (s : string) :
  all_chars Py.isspace s = true -> Py.split_whitespace s = [].
Proof.
  unfold Py.split_whitespace.
  induction s as [|c s IH]; [reflexivity|].
  cbn [all_chars Py.split_at]. intros H.
  apply andb_true_iff in H as [Hc Hs]. rewrite Hc. cbn [filter Py.nonempty].
  auto.
Qed.

End WordFacts.

(** X12.  Whether [git tag] exits with zero or not, [fetch_tags] raises
    nothing and leaves the object as it is; no tag it returns is empty
    or holds whitespace. *)
Theorem fetch_tags_returns_words
    (datetime : Type) (w : World) (s : Run datetime) :
  exists ts, fetch_tags w s = (Ok ts, s) /\ Forall word ts.
Proof.
  rewrite RunFacts.fetch_tags_run. eexists. split; [reflexivity|].
  unfold listed_tags. destruct (run w _); [|constructor].
  apply SplitFacts.split_whitespace_words.
Qed.

(** X13.  When [git tag] prints the tags one per line, [fetch_tags] returns
    exactly these tags, in the order of the lines. *)
Theorem tags_listed_one_per_line
    (datetime : Type) (w : World) (ts : list string) (s : Run datetime) :
  Forall word ts ->
  run w ["git"; "tag"] = Exit0 (one_per_line ts) ->
  fetch_tags w s = (Ok ts, s).
Proof.
  intros Hts Hrun. rewrite RunFacts.fetch_tags_run. unfold listed_tags.
  rewrite Hrun, WordFacts.split_whitespace_strip.
  now rewrite WordFacts.split_whitespace_lines.
Qed.

Lemma tags_listed_one_per_line_witness :
  let w := repository (one_per_line ["v1.0.0"; "v1.10.0"; "v1.9.0"]) "v1.10.0" "" in
  Forall word ["v1.0.0"; "v1.10.0"; "v1.9.0"]
  /\ fetch_tags w (@fresh git_date) = (Ok ["v1.0.0"; "v1.10.0"; "v1.9.0"], fresh).
Proof.
  intros w.
  assert (H : Forall word ["v1.0.0"; "v1.10.0"; "v1.9.0"]).
  { repeat constructor; discriminate. }
  split; [exact H|].
  exact (tags_listed_one_per_line git_date w _ fresh H eq_refl).
Defined.

(** X14.  A tag listing of nothing but whitespace is a repository without
    tags: the current version is [v0.0.0]. *)
Theorem blank_tag_listing_is_v0_0_0
    (datetime : Type) (w : World) (out : string) (s : Run datetime) :
  run w ["git"; "tag"] = Exit0 out ->
  all_chars Py.isspace out = true ->
  fetch_tags w s = (Ok [], s)
  /\ get_current_version w s = (Ok "v0.0.0", s).
Proof.
  intros Hrun Hblank.
  rewrite RunFacts.get_current_version_run, RunFacts.fetch_tags_run.
  unfold listed_tags.
  rewrite Hrun, WordFacts.split_whitespace_strip,
    WordFacts.split_whitespace_blank by assumption.
  split; reflexivity.
Qed.

Lemma blank_tag_listing_is_v0_0_0_witness :
  let w := repository (newline ++ " " ++ newline) "v0.0.0" "" in
  all_chars Py.isspace (newline ++ " " ++ newline) = true
  /\ get_current_version w (@fresh git_date) = (Ok "v0.0.0", fresh).
Proof.
  intros w. split; [reflexivity|].
  apply (blank_tag_listing_is_v0_0_0 git_date w (newline ++ " " ++ newline) fresh);
    reflexivity.
Defined.

Module StableFacts.

Lemma rmap_app_ok {A B : Type} (f : A -> result B)
    (xs xs' : list A) (ys ys' : list B) :
  rmap f xs = Ok ys -> rmap f xs' = Ok ys' ->
  rmap f (xs ++ xs')%list = Ok (ys ++ ys')%list.
Proof.
  revert ys. induction xs as [|x xs IH]; intros ys H H'.
  - injection H as <-. exact H'.
  - change (rbind (f x) (fun y => rbind (rmap f xs) (fun zs => Ok (y :: zs)))
            = Ok ys) in H.
    change (rbind (f x) (fun y => rbind (rmap f (xs ++ xs')%list)
                                        (fun zs => Ok (y :: zs)))
            = Ok (ys ++ ys')%list).
    destruct (f x) as [y|e]; cbn [rbind] in *; [|discriminate].
    destruct (rmap f xs) as [zs|e]; cbn [rbind] in *; [|discriminate].
    injection H as <-. now rewrite (IH zs eq_refl H').
Qed.

(** The keyed list [sorted] builds for tags whose keys satisfy [P]. *)
Lemma rmap_keyed (P : list Z -> Prop) (l : list string) :
  Forall (fun u => exists ku, version_key u = Ok ku /\ P ku) l ->
  exists kl,
    rmap (fun x => rbind (version_key x) (fun k => Ok (k, x))) l = Ok kl
    /\ Forall (fun kx => P (fst kx)) kl.
Proof.
  induction 1 as [|u l [ku [Hu HP]] _ [kl [Hkl HF]]]; cbn [rmap].
  - exists []. split; [reflexivity|constructor].
  - rewrite Hu, Hkl. cbn [rbind]. exists ((ku, u) :: kl).
    split; [reflexivity|]. now constructor.
Qed.

(** The sort is stable: an element that none before it exceeds and that
    exceeds all after it ends up last. *)
Lemma sort_keyed_last_of_greatest {A : Type}
    (l1 l2 : list (list Z * A)) (m : list Z * A) :
  Forall (fun x => Py.tuple_lt (fst m) (fst x) = false) l1 ->
  Forall (fun x => Py.tuple_lt (fst x) (fst m) = true) l2 ->
  Py.getitem_last (Py.sort_keyed (l1 ++ m :: l2)%list) = Ok m.
Proof.
  intros H1 H2. induction H1 as [|x l1 Hx _ IH].
  - change (Py.getitem_last (Py.insert_by_key m (Py.sort_keyed l2)) = Ok m).
    destruct (SortFacts.insert_by_key_last m (Py.sort_keyed l2))
      as [[Hlast _]|[_ [ky [Hin Hge]]]]; [exact Hlast|].
    apply (proj1 (SortFacts.sort_keyed_In _ _)) in Hin.
    rewrite Forall_forall in H2. rewrite (H2 _ Hin) in Hge. discriminate.
  - change (Py.getitem_last
              (Py.insert_by_key x (Py.sort_keyed (l1 ++ m :: l2)%list)) = Ok m).
    destruct (SortFacts.insert_by_key_last x (Py.sort_keyed (l1 ++ m :: l2)%list))
      as [[_ Hall]|[Hlast _]]; [|now rewrite Hlast].
    assert (Hin : In m (Py.sort_keyed (l1 ++ m :: l2)%list)).
    { apply (proj2 (SortFacts.sort_keyed_In _ _)), in_or_app. right. now left. }
    rewrite (Hall _ Hin) in Hx. discriminate.
Qed.

End StableFacts.

(** X15.  Which tag [get_current_version] returns when several tags have the
    greatest key: the one listed last.  A tag that no earlier tag
    exceeds and that exceeds every later tag is the current version. *)
Theorem last_listed_greatest_tag_wins
    (before after : list string) (t : string) (k : list Z) :
  version_key t = Ok k ->
  Forall (fun u => exists ku, version_key u = Ok ku
                              /\ Py.tuple_lt k ku = false) before ->
  Forall (fun u => exists ku, version_key u = Ok ku
                              /\ Py.tuple_lt ku k = true) after ->
  current_version_of (before ++ t :: after)%list = Ok t.
Proof.
  intros Ht Hb Ha.
  destruct (StableFacts.rmap_keyed _ _ Hb) as [kb [Hkb HFb]].
  destruct (StableFacts.rmap_keyed _ _ Ha) as [ka [Hka HFa]].
  set (g := fun x : string => rbind (version_key x) (fun k => Ok (k, x))) in *.
  assert (Hall : rmap g (before ++ t :: after)%list
                 = Ok (kb ++ (k, t) :: ka)%list).
  { apply StableFacts.rmap_app_ok; [exact Hkb|].
    cbn [rmap]. unfold g at 1. rewrite Ht, Hka. reflexivity. }
  unfold current_version_of, Py.sorted. fold g.
  destruct (before ++ t :: after)%list as [|t0 ts] eqn:E.
  - now destruct before.
  - rewrite Hall. cbn [rbind].
    apply (SortFacts.getitem_last_map snd _ (k, t)).
    now apply StableFacts.sort_keyed_last_of_greatest.
Qed.

Lemma last_listed_greatest_tag_wins_witness :
  version_key "1.0.0" = Ok [1; 0; 0]
  /\ version_key "v1.0.0" = Ok [1; 0; 0]
  /\ current_version_of ["v1.0.0"; "v0.9.0"; "1.0.0"; "v0.1.0"] = Ok "1.0.0".
Proof.
  split; [reflexivity|]. split; [reflexivity|].
  apply (last_listed_greatest_tag_wins ["v1.0.0"; "v0.9.0"] ["v0.1.0"]
           "1.0.0" [1; 0; 0]).
  - reflexivity.
  - repeat constructor; eexists; split; reflexivity.
  - repeat constructor; eexists; split; reflexivity.
Defined.

(** ** The record and the file *)

(** X16.  A completed run of the pipeline has written a record whose tags are
    the tags of the repository, each of them with an integer key; the
    current version of the record is one of these tags, or [v0.0.0] when
    there is none, and the next version is what
    [determine_next_version] makes of it. *)
Theorem written_record_invariants
    (datetime : Type) (strptime : string -> string -> result datetime)
    (w : World) (branch labels msg : string) (s st : Run datetime) :
  write_version_details_to_file strptime w branch labels s = (Ok msg, st) ->
  exists r,
    files st = (files s ++ [(artifact_path branch, r)])%list
    /\ fetch_tags w s = (Ok (tags r), s)
    /\ Forall (fun t => exists k, version_key t = Ok k) (tags r)
    /\ (tags r = [] /\ current_version r = "v0.0.0"
        \/ In (current_version r) (tags r))
    /\ determine_next_version (current_version r) s = (Ok (next_version r), s).
Proof.
  rewrite RunFacts.write_version_details_to_file_run.
  destruct (current_version_of (listed_tags w)) as [current|e] eqn:Hcur;
    [|discriminate].
  destruct (logged_commits _ _ _) as [commits|e]; [|discriminate].
  destruct (next_version_of (self s) current) as [next|e] eqn:Hnext;
    [|discriminate].
  destruct (store w _ _); try discriminate.
  intros [= <- <-]. eexists. split; [reflexivity|].
  cbn [tags current_version next_version files].
  rewrite RunFacts.fetch_tags_run, RunFacts.determine_next_version_run, Hnext.
  split; [reflexivity|].
  assert (Hkeys : Forall (fun t => exists k, version_key t = Ok k) (listed_tags w)).
  { destruct (TagFacts.tags_cases (listed_tags w)) as [H|H]; [exact H|].
    apply TagFacts.current_version_of_raise in H. congruence. }
  split; [exact Hkeys|]. split; [|reflexivity].
  destruct (listed_tags w) as [|t ts] eqn:Hts.
  - left. split; [reflexivity|]. now injection Hcur as <-.
  - right.
    destruct (TagFacts.current_version_of_max (t :: ts)) as [t' [k [Ht' [Hin _]]]];
      [discriminate|exact Hkeys|].
    congruence.
Qed.

Lemma written_record_invariants_witness :
  exists msg st r,
    write_version_details_to_file strptime_git repo_feat_fix "main" "a,b" fresh
    = (Ok msg, st)
    /\ files st = [(artifact_path "main", r)]
    /\ tags r = ["v1.2.3"]
    /\ In (current_version r) (tags r)
    /\ determine_next_version (current_version r) (@fresh git_date)
       = (Ok (next_version r), fresh).
Proof.
  destruct (write_version_details_to_file strptime_git repo_feat_fix
              "main" "a,b" fresh) as [[msg|e] st] eqn:E;
    [|vm_compute in E; discriminate].
  destruct (written_record_invariants git_date strptime_git repo_feat_fix
              "main" "a,b" msg fresh st E)
    as [r [Hf [Ht [_ [Hc Hn]]]]].
  exists msg, st, r. split; [reflexivity|]. split; [exact Hf|].
  assert (Htags : tags r = ["v1.2.3"]).
  { rewrite RunFacts.fetch_tags_run in Ht. injection Ht as Ht.
    rewrite <- Ht. reflexivity. }
  split; [exact Htags|]. split; [|exact Hn].
  destruct Hc as [[Hnil _]|Hin]; [congruence|exact Hin].
Defined.

(** X17.  The labels of the record are the pieces of the argument between its
    commas, kept as they are: joined with commas they give the argument
    back, there is one more label than there are commas, and no label
    holds a comma. *)
Theorem labels_are_split_at_commas
    (datetime : Type) (strptime : string -> string -> result datetime)
    (w : World) (branch labels msg : string) (s st : Run datetime) :
  write_version_details_to_file strptime w branch labels s = (Ok msg, st) ->
  exists r,
    files st = (files s ++ [(artifact_path branch, r)])%list
    /\ Py.join "," (pr_labels r) = labels
    /\ List.length (pr_labels r) = S (count_chars (Ascii.eqb ",") labels)
    /\ Forall (fun l => all_chars (fun c => negb (Ascii.eqb "," c)) l = true)
              (pr_labels r).
Proof.
  rewrite RunFacts.write_version_details_to_file_run.
  destruct (current_version_of (listed_tags w)) as [current|e]; [|discriminate].
  destruct (logged_commits _ _ _) as [commits|e]; [|discriminate].
  destruct (next_version_of (self s) current) as [next|e]; [|discriminate].
  destruct (store w _ _); try discriminate.
  intros [= <- <-]. eexists. split; [reflexivity|]. cbn [pr_labels].
  split; [apply SplitFacts.join_split|].
  split; [apply SplitFacts.split_at_length|apply SplitFacts.split_at_pieces].
Qed.

Lemma labels_are_split_at_commas_witness :
  exists msg st r,
    write_version_details_to_file strptime_git repo_feat_fix "main"
      "bug, needs review,,docs" fresh
    = (Ok msg, st)
    /\ files st = [(artifact_path "main", r)]
    /\ Py.join "," (pr_labels r) = "bug, needs review,,docs"
    /\ List.length (pr_labels r) = 4%nat.
Proof.
  destruct (write_version_details_to_file strptime_git repo_feat_fix
              "main" "bug, needs review,,docs" fresh) as [[msg|e] st] eqn:E;
    [|vm_compute in E; discriminate].
  destruct (labels_are_split_at_commas git_date strptime_git repo_feat_fix
              "main" "bug, needs review,,docs" msg fresh st E)
    as [r [Hf [Hj [Hl _]]]].
  exists msg, st, r. repeat split; assumption.
Defined.

Module PathFacts.

Lemma length_append (a b : string) :
  String.length (a ++ b) = (String.length a + String.length b)%nat.
Proof. induction a as [|c a IH]; simpl; [reflexivity|now rewrite IH]. Qed.

Lemma append_assoc (a b c : string) : ((a ++ b) ++ c = a ++ (b ++ c))%string.
Proof. induction a as [|x a IH]; simpl; [reflexivity|now rewrite IH]. Qed.

Lemma append_inv_tail (a b t : string) : (a ++ t = b ++ t)%string -> a = b.
Proof.
  revert b. induction a as [|c a IH]; intros [|d b] H; simpl in H.
  - reflexivity.
  - apply (f_equal String.length) in H. simpl in H.
    rewrite length_append in H. lia.
  - apply (f_equal String.length) in H. simpl in H.
    rewrite length_append in H. lia.
  - injection H as -> H. f_equal. now apply IH.
Qed.

Lemma ends_with_slash_app (a b : string) :
  b <> "" -> Py.ends_with_slash (a ++ b) = Py.ends_with_slash b.
Proof.
  intros Hb. induction a as [|c a IH]; [reflexivity|].
  simpl. destruct (a ++ b)%string as [|x y] eqn:E.
  - destruct a; simpl in E; [congruence|discriminate].
  - exact IH.
Qed.

Lemma artifact_path_plain (b : string) :
  b <> "" -> Py.ends_with_slash b = false ->
  artifact_path b = (".artifacts/" ++ b ++ "/version_details.json")%string.
Proof.
  intros Hb Hs. unfold artifact_path, Py.path_join.
  rewrite (ends_with_slash_app ".artifacts/" b Hb), Hs.
  reflexivity.
Qed.

End PathFacts.

(** X18.  The file of a branch is [.artifacts/<branch>/version_details.json];
    a slash at the end of the branch name is not doubled, so the name
    with the slash and the name without it share one file. *)
Theorem trailing_slash_is_dropped (branch : string) :
  branch <> "" -> Py.ends_with_slash branch = false ->
  artifact_path branch
  = (".artifacts/" ++ branch ++ "/version_details.json")%string
  /\ artifact_path (branch ++ "/") = artifact_path branch.
Proof.
  intros Hb Hs. split; [now apply PathFacts.artifact_path_plain|].
  rewrite (PathFacts.artifact_path_plain branch Hb Hs).
  unfold artifact_path, Py.path_join.
  rewrite (PathFacts.ends_with_slash_app ".artifacts/" (branch ++ "/")).
  - rewrite (PathFacts.ends_with_slash_app branch "/") by discriminate.
    cbn [Py.ends_with_slash Ascii.eqb Bool.eqb append].
    now rewrite PathFacts.append_assoc.
  - destruct branch; discriminate.
Qed.

Lemma trailing_slash_is_dropped_witness :
  artifact_path "feature/login"
  = ".artifacts/feature/login/version_details.json"
  /\ artifact_path "feature/login/" = artifact_path "feature/login".
Proof.
  apply (trailing_slash_is_dropped "feature/login"); [discriminate|reflexivity].
Defined.

(** X19.  Two different branch names, neither empty nor ending in a slash,
    have different files. *)
Theorem distinct_branches_distinct_files (b1 b2 : string) :
  b1 <> "" -> Py.ends_with_slash b1 = false ->
  b2 <> "" -> Py.ends_with_slash b2 = false ->
  b1 <> b2 ->
  artifact_path b1 <> artifact_path b2.
Proof.
  intros H1 S1 H2 S2 Hne Heq.
  rewrite (PathFacts.artifact_path_plain b1 H1 S1),
    (PathFacts.artifact_path_plain b2 H2 S2) in Heq.
  cbn [append] in Heq. injection Heq as Heq.
  now apply PathFacts.append_inv_tail in Heq.
Qed.

Lemma distinct_branches_distinct_files_witness :
  artifact_path "main" <> artifact_path "main/v2".
Proof.
  apply (distinct_branches_distinct_files "main" "main/v2");
    first [discriminate | reflexivity].
Defined.

(** ** The edges of the log *)

(** X20.  A log without lines, when nothing was committed since the current
    version, gives no commit records and no exception. *)
Theorem empty_log_is_no_commits
    (datetime : Type) (strptime : string -> string -> result datetime)
    (w : World) (since raw : string) (s : Run datetime) :
  run w (log_command since) = Exit0 raw ->
  all_chars Py.isspace raw = true ->
  fetch_commit_messages strptime w since s = (Ok [], s).
Proof.
  intros Hrun Hblank.
  rewrite RunFacts.fetch_commit_messages_run. unfold logged_commits.
  unfold log_command in Hrun. rewrite Hrun.
  unfold log_lines, Py.strip, Py.strip_chars.
  now rewrite (SplitFacts.lstrip_all _ _ Hblank).
Qed.

Lemma empty_log_is_no_commits_witness :
  let w := repository ("v1.0.0" ++ newline) "v1.0.0" "" in
  get_current_version w (@fresh git_date) = (Ok "v1.0.0", fresh)
  /\ fetch_commit_messages strptime_git w "v1.0.0" fresh = (Ok [], fresh).
Proof.
  intros w. split; [reflexivity|].
  apply (empty_log_is_no_commits git_date strptime_git w "v1.0.0" "" fresh);
    reflexivity.
Defined.

(** X21.  A date that [strptime] rejects is not recovered: the exception of
    [strptime] on the fourth field of the first line is the exception of
    [fetch_commit_messages], and the pipeline ends with it before a file
    is written. *)
Theorem unparsable_date_is_fatal
    (datetime : Type) (strptime : string -> string -> result datetime)
    (w : World) (branch labels current raw line : string) (rest : list string)
    (hash name mail ad subject : string) (more : list string) (e : exn)
    (s : Run datetime) :
  get_current_version w s = (Ok current, s) ->
  run w (log_command current) = Exit0 raw ->
  log_lines raw = line :: rest ->
  Py.split "|" line = hash :: name :: mail :: ad :: subject :: more ->
  strptime ad "%a %b %d %H:%M:%S %Y %z" = Raise e ->
  fetch_commit_messages strptime w current s = (Raise e, s)
  /\ write_version_details_to_file strptime w branch labels s = (Raise e, s).
Proof.
  intros Hcur Hrun Hlines Hsplit Hdate.
  rewrite RunFacts.get_current_version_run in Hcur. injection Hcur as Hcur.
  rewrite RunFacts.write_version_details_to_file_run,
    RunFacts.fetch_commit_messages_run, Hcur.
  unfold logged_commits. unfold log_command in Hrun. rewrite Hrun, Hlines.
  cbn [rmap]. unfold commit_detail_of_line. rewrite Hsplit.
  cbn [Py.getitem nth_error rbind]. rewrite Hdate. split; reflexivity.
Qed.

Lemma unparsable_date_is_fatal_witness :
  let w := repository ("v1.0.0" ++ newline) "v1.0.0"
             "9fceb02|Ada|ada@example.com|2005-04-07 15:13:13|fix: typo" in
  strptime_git "2005-04-07 15:13:13" "%a %b %d %H:%M:%S %Y %z" = Raise ValueError
  /\ write_version_details_to_file strptime_git w "main" "" fresh
     = (Raise ValueError, fresh).
Proof.
  intros w. split; [reflexivity|].
  apply (unparsable_date_is_fatal git_date strptime_git w "main" "" "v1.0.0"
           "9fceb02|Ada|ada@example.com|2005-04-07 15:13:13|fix: typo"
           "9fceb02|Ada|ada@example.com|2005-04-07 15:13:13|fix: typo" []
           "9fceb02" "Ada" "ada@example.com" "2005-04-07 15:13:13" "fix: typo"
           [] ValueError fresh);
    reflexivity.
Defined.

(** ** The exceptions of a run *)

Module RaiseFacts.

Lemma rmap_raise_inv {A B : Type} (f : A -> result B) (xs : list A) (e : exn) :
  rmap f xs = Raise e -> exists x, In x xs /\ f x = Raise e.
Proof.
  induction xs as [|x xs IH]; simpl; [discriminate|].
  destruct (f x) as [y|e'] eqn:Hx; simpl.
  - destruct (rmap f xs); simpl; [discriminate|].
    intros [= <-]. destruct IH as [x' [Hin Hx']]; eauto.
  - intros [= <-]. eauto.
Qed.

(** The first element on which [f] raises decides. *)
Lemma rmap_raise_first {A B : Type} (f : A -> result B) (xs : list A) (e : exn) :
  rmap f xs = Raise e ->
  exists before x after,
    xs = (before ++ x :: after)%list
    /\ Forall (fun y => exists b, f y = Ok b) before
    /\ f x = Raise e.
Proof.
  induction xs as [|x xs IH]; simpl; [discriminate|].
  destruct (f x) as [y|e'] eqn:Hx; simpl.
  - destruct (rmap f xs); simpl; [discriminate|].
    intros [= <-]. destruct IH as (before & x' & after & -> & Hb & Hx');
      [reflexivity|].
    exists (x :: before), x', after. repeat split; [|exact Hx'].
    constructor; eauto.
  - intros [= <-]. exists [], x, xs. repeat split; [constructor|exact Hx].
Qed.

Lemma current_version_of_raises (tags : list string) (e : exn) :
  current_version_of tags = Raise e ->
  e = ValueError /\ Exists (fun t => version_key t = Raise ValueError) tags.
Proof.
  intros H. destruct (TagFacts.tags_cases tags) as [Hall|Hex].
  - destruct tags as [|t ts]; [discriminate|].
    destruct (TagFacts.current_version_of_max (t :: ts)) as [t' [k [Ht' _]]];
      [discriminate|exact Hall|congruence].
  - split; [|exact Hex].
    apply TagFacts.current_version_of_raise in Hex. congruence.
Qed.

Lemma commit_detail_of_line_raises {datetime : Type}
    (strptime : string -> string -> result datetime) (line : string) (e : exn) :
  commit_detail_of_line strptime line = Raise e ->
  e = IndexError \/ exists ad, strptime ad "%a %b %d %H:%M:%S %Y %z" = Raise e.
Proof.
  unfold commit_detail_of_line, Py.getitem.
  destruct (Py.split "|" line) as [|h [|a [|m [|d [|subject rest]]]]];
    cbn [nth_error rbind]; try (intros [= <-]; now left).
  destruct (strptime d _) as [dt|e'] eqn:Hd; cbn [rbind]; [discriminate|].
  intros [= <-]. right. eauto.
Qed.

Lemma next_version_of_raises (g : GithubWorkflow) (version : string) (e : exn) :
  next_version_of g version = Raise e -> e = ValueError \/ e = IndexError.
Proof.
  unfold next_version_of.
  destruct (version_key version) as [parts|e'] eqn:Hk; cbn [rbind].
  - destruct (bump_parts g parts) as [parts'|e'] eqn:Hb; cbn [rbind];
      [discriminate|].
    intros [= <-]. right. now apply BumpFacts.bump_parts_raises in Hb.
  - intros [= <-]. left. now apply RunFacts.version_key_raises in Hk.
Qed.

End RaiseFacts.

(** X22.  The exceptions of the pipeline and their causes, [git]
    running to an exit status each time: [ValueError] for a tag with a
    component that is not an integer; [CalledProcessError] for a failing
    [git log]; for the first line of the log of which no record can be
    made, [IndexError] when it has fewer than five fields and otherwise
    what [strptime] raises on its fourth field; [IndexError] for a
    current version of fewer than three components when a bump is due;
    [OSError] when [os.makedirs], [open] or [file.write] raises, and
    [TypeError] when the serialiser does. *)
Theorem pipeline_raises_only
    (datetime : Type) (strptime : string -> string -> result datetime)
    (w : World) (branch labels : string) (e : exn) (s st : Run datetime) :
  write_version_details_to_file strptime w branch labels s = (Raise e, st) ->
  (e = ValueError
   /\ exists tags, fetch_tags w s = (Ok tags, s)
                   /\ Exists (fun t => version_key t = Raise ValueError) tags)
  \/ exists current,
      get_current_version w s = (Ok current, s)
      /\ ((e = CalledProcessError
           /\ exists status, run w (log_command current) = ExitNonZero status)
          \/ (exists raw before line after,
                run w (log_command current) = Exit0 raw
                /\ log_lines raw = (before ++ line :: after)%list
                /\ Forall (fun l => exists c,
                                      commit_detail_of_line strptime l = Ok c)
                          before
                /\ ((e = IndexError
                     /\ (count_chars (Ascii.eqb "|") line < 4)%nat)
                    \/ exists ad,
                        Py.getitem (Py.split "|" line) 3 = Ok ad
                        /\ strptime ad "%a %b %d %H:%M:%S %Y %z" = Raise e))
          \/ (e = IndexError
              /\ fst (determine_version_bump s) <> Ok "None"
              /\ exists parts, version_key current = Ok parts
                               /\ (List.length parts < 3)%nat)
          \/ (e = OSError
              /\ (store w (".artifacts/" ++ branch)%string (artifact_path branch)
                  = MakedirsRaises
                  \/ store w (".artifacts/" ++ branch)%string (artifact_path branch)
                     = OpenRaises
                  \/ store w (".artifacts/" ++ branch)%string (artifact_path branch)
                     = WriteRaises))
          \/ (e = TypeError
              /\ store w (".artifacts/" ++ branch)%string (artifact_path branch)
                 = JsonRaises)).
Proof.
  rewrite RunFacts.write_version_details_to_file_run,
    RunFacts.fetch_tags_run, RunFacts.determine_version_bump_run.
  setoid_rewrite RunFacts.get_current_version_run.
  fold (artifact_directory branch). cbn [fst].
  destruct (current_version_of (listed_tags w)) as [current|e0] eqn:Hcur.
  - intros H. right. exists current. split; [reflexivity|].
    destruct (logged_commits strptime w current) as [commits|e1] eqn:Hlog.
    + destruct (next_version_of (self s) current) as [next|e2] eqn:Hnext.
      * right. right. right.
        destruct (store w _ _) eqn:Hstore; try discriminate;
          injection H as <- _; auto.
      * injection H as <- _. right. right. left.
        unfold next_version_of in Hnext.
        destruct (version_key current) as [parts|e3] eqn:Hk; cbn [rbind] in Hnext.
        -- destruct (bump_parts (self s) parts) as [parts'|e3] eqn:Hb;
             cbn [rbind] in Hnext; [discriminate|].
           injection Hnext as <-.
           split; [now apply BumpFacts.bump_parts_raises in Hb|].
           split.
           ++ intros Hnone. unfold bump_of in Hnone. unfold bump_parts in Hb.
              destruct (breaking_count (self s) >? 0); [discriminate|].
              destruct (minor_count (self s) >? 0); [discriminate|].
              destruct (patch_count (self s) >? 0); discriminate.
           ++ exists parts. split; [reflexivity|].
              destruct parts as [|a [|b [|c rest]]]; cbn [List.length]; try lia.
              rewrite BumpFacts.bump_parts_three in Hb. discriminate.
        -- exfalso. injection Hnext as <-.
           destruct (listed_tags w) as [|t ts] eqn:Hts.
           ++ injection Hcur as <-. discriminate.
           ++ destruct (TagFacts.tags_cases (t :: ts)) as [Hall|Hex].
              ** destruct (TagFacts.current_version_of_max (t :: ts))
                   as [t' [k [Ht' [_ [Hk' _]]]]]; [discriminate|exact Hall|].
                 congruence.
              ** apply TagFacts.current_version_of_raise in Hex. congruence.
    + injection H as <- _. unfold logged_commits in Hlog. unfold log_command.
      destruct (run w _) as [raw|status] eqn:Hrun.
      * right. left. exists raw.
        apply RaiseFacts.rmap_raise_first in Hlog
          as (before & line & after & Hlines & Hbefore & Hline).
        exists before, line, after.
        split; [reflexivity|]. split; [exact Hlines|]. split; [exact Hbefore|].
        unfold commit_detail_of_line, Py.getitem in Hline |- *.
        pose proof (SplitFacts.split_at_length (Ascii.eqb "|") line) as Hlen.
        fold (Py.split "|" line) in Hlen.
        destruct (Py.split "|" line) as [|h [|a [|m [|d [|subject rest]]]]];
          cbn [nth_error rbind] in Hline |- *;
          try (injection Hline as <-; left; split; [reflexivity|];
               cbn [List.length] in Hlen; lia).
        destruct (strptime d _) as [dt|e'] eqn:Hd; cbn [rbind] in Hline;
          [discriminate|].
        injection Hline as <-. right. eauto.
      * injection Hlog as <-. left. eauto.
  - intros [= <- _]. left.
    apply RaiseFacts.current_version_of_raises in Hcur as [-> Hex].
    split; [reflexivity|]. eauto.
Qed.

(** A log whose second line carries a date in another layout: the first
    line gives a record, the second makes [strptime] raise. *)
Lemma pipeline_raises_only_witness :
  let line1 :=
    "9fceb02|Ada|ada@example.com|Thu Apr 7 15:13:13 2005 -0700|feat: add X" in
  let line2 := "1a410ef|Bob|bob@example.com|2005-04-08 09:02:41|fix: typo" in
  let w := repository ("v1.0.0" ++ newline) "v1.0.0"
             (line1 ++ newline ++ line2 ++ newline) in
  write_version_details_to_file strptime_git w "main" "" fresh
  = (Raise ValueError, fresh)
  /\ log_lines (line1 ++ newline ++ line2 ++ newline) = [line1; line2]
  /\ (exists c, commit_detail_of_line strptime_git line1 = Ok c)
  /\ Py.getitem (Py.split "|" line2) 3 = Ok "2005-04-08 09:02:41"
  /\ strptime_git "2005-04-08 09:02:41" "%a %b %d %H:%M:%S %Y %z"
     = Raise ValueError
  /\ ((exists tags,
         fetch_tags w (@fresh git_date) = (Ok tags, fresh)
         /\ Exists (fun t => version_key t = Raise ValueError) tags)
      \/ exists current raw before line after,
          get_current_version w (@fresh git_date) = (Ok current, fresh)
          /\ run w (log_command current) = Exit0 raw
          /\ log_lines raw = (before ++ line :: after)%list
          /\ Forall (fun l => exists c,
                                commit_detail_of_line strptime_git l = Ok c)
                    before
          /\ exists ad,
              Py.getitem (Py.split "|" line) 3 = Ok ad
              /\ strptime_git ad "%a %b %d %H:%M:%S %Y %z" = Raise ValueError).
Proof.
  intros line1 line2 w.
  assert (E : write_version_details_to_file strptime_git w "main" "" fresh
              = (Raise ValueError, fresh)) by reflexivity.
  split; [exact E|]. split; [reflexivity|].
  split; [eexists; vm_compute; reflexivity|].
  split; [reflexivity|]. split; [reflexivity|].
  destruct (pipeline_raises_only git_date strptime_git w "main" "" ValueError
              fresh fresh E)
    as [[_ Htags]|[current [Hc Hcause]]]; [left; exact Htags|right].
  destruct Hcause as [[H _]|[H|[[H _]|[[H _]|[H _]]]]]; try discriminate H.
  destruct H as (raw & before & line & after & Hrun & Hlines & Hbefore & Hline).
  destruct Hline as [[H _]|Had]; [discriminate H|].
  exists current, raw, before, line, after. auto.
Defined.

(** X23.  For a command line that [argparse] accepts, and a [strptime] that
    does not end the process itself, the program exits through
    [SystemExit] exactly when neither [--config-git] nor a non-empty
    branch name is given; the status is then 2 and nothing has been
    written or printed. *)
Theorem missing_branch_name_is_usage_error
    (datetime : Type) (strptime : string -> string -> result datetime)
    (w : World) (cl : CommandLine) (n : Z) (s st : Run datetime) :
  (forall ad fmt status, strptime ad fmt <> Raise (SystemExit status)) ->
  process_arguments strptime w cl s = (Raise (SystemExit n), st)
  <-> n = 2 /\ st = s /\ opt_config_git cl = false
      /\ (opt_branch_name cl = None \/ opt_branch_name cl = Some "").
Proof.
  intros Hstrptime. destruct cl as [config branch labels].
  unfold process_arguments, parse_args.
  cbn [config_git branch_name pr_labels_arg opt_config_git opt_branch_name
       opt_pr_labels].
  split.
  - destruct config.
    + unfold set_git_config, bind, check_call, lift, ret, print.
      repeat destruct (run w _); discriminate.
    + destruct branch as [[|c b]|].
      * intros [= <- <-]. auto.
      * unfold bind.
        rewrite RunFacts.write_version_details_to_file_run.
        destruct (current_version_of (listed_tags w)) as [current|e0] eqn:Hcur.
        -- destruct (logged_commits strptime w current) as [commits|e1] eqn:Hlog.
           ++ destruct (next_version_of (self s) current) as [next|e2] eqn:Hnext;
                [destruct (store w _ _); discriminate|].
              intros [= -> _].
              apply RaiseFacts.next_version_of_raises in Hnext.
              destruct Hnext; discriminate.
           ++ intros [= -> _]. unfold logged_commits in Hlog.
              destruct (run w _); [|discriminate].
              apply RaiseFacts.rmap_raise_inv in Hlog as [line [_ Hline]].
              apply RaiseFacts.commit_detail_of_line_raises in Hline
                as [Hline|[ad Had]]; [discriminate|].
              now apply Hstrptime in Had.
        -- intros [= -> _].
           apply RaiseFacts.current_version_of_raises in Hcur as [Hcur _].
           discriminate.
      * intros [= <- <-]. auto.
  - intros [-> [-> [-> [->| ->]]]]; reflexivity.
Qed.

Lemma missing_branch_name_is_usage_error_witness :
  main (fun _ _ : string => @Raise unit ValueError) repo_feat_fix
    {| opt_config_git := false; opt_branch_name := Some "";
       opt_pr_labels := Some "bug" |}
  = (Raise (SystemExit 2), fresh).
Proof.
  apply (missing_branch_name_is_usage_error unit
           (fun _ _ : string => @Raise unit ValueError) repo_feat_fix
           {| opt_config_git := false; opt_branch_name := Some "";
              opt_pr_labels := Some "bug" |} 2 fresh fresh).
  - intros ad fmt status. discriminate.
  - split; [reflexivity|]. split; [reflexivity|]. split; [reflexivity|].
    right. reflexivity.
Defined.
